(** * Trademark crawler: a shallow embedding of [src/crawler.ts]

  The development follows the source file top-down:

  - [JS]: the string primitives of the host language that the crawler
    calls ([toLowerCase], [trim], [includes], [replace(/\s+/g, ' ')]);
  - [Detail]: the in-page extraction callback of [extractDetailData];
  - [Browser]: the page resource and the engine calls, as a state and
    error monad over a page record;
  - [Form]: [setCheckboxes], [fillDateField], [performSearch];
  - [Listing]: the default handler with its [formFilled] guard and the
    pagination loop;
  - [DetailTask]: the detail handler;
  - [Args]: [validateArgs].

  The properties follow the definitions, component by component.

  Strings are sequences of 8-bit code units (the Latin-1 range of the
  UTF-16 code units of the host language). *)

From stdpp Require Import gmap strings list fin_maps.
From Stdlib Require Import ZArith NArith Ascii String.

Local Open Scope string_scope.
Local Open Scope list_scope.

(* ===================================================================== *)
(** ** Host-language string primitives *)
(* ===================================================================== *)

Module JS.

(** White space and line terminators of the host language that fall in
    the Latin-1 range: TAB, LF, VT, FF, CR, SP and NBSP.  Both
    [String.prototype.trim] and the regular-expression class [\s] use
    this set. *)
Definition isWhiteSpace (c : ascii) : bool :=
  let n := N_of_ascii c in
  ((9 <=? n) && (n <=? 13) || (n =? 32) || (n =? 160))%N.

(** Lower-casing of one code unit: [A-Z] and the upper-case letters of
    the Latin-1 supplement (U+00C0..U+00DE without the multiplication
    sign U+00D7) move up by 32; every other unit is unchanged. *)
Definition toLowerUnit (c : ascii) : ascii :=
  let n := N_of_ascii c in
  if ((65 <=? n) && (n <=? 90)
      || (192 <=? n) && (n <=? 222) && negb (n =? 215))%N
  then ascii_of_N (n + 32) else c.

Fixpoint toLowerCase (s : string) : string :=
  match s with
  | EmptyString => EmptyString
  | String c s' => String (toLowerUnit c) (toLowerCase s')
  end.

Definition isEmpty (s : string) : bool :=
  match s with EmptyString => true | String _ _ => false end.

Fixpoint trimStart (s : string) : string :=
  match s with
  | EmptyString => EmptyString
  | String c s' => if isWhiteSpace c then trimStart s' else s
  end.

Fixpoint trimEnd (s : string) : string :=
  match s with
  | EmptyString => EmptyString
  | String c s' =>
      let r := trimEnd s' in
      if isWhiteSpace c && isEmpty r then EmptyString else String c r
  end.

(** [s.trim()] *)
Definition trim (s : string) : string := trimEnd (trimStart s).

(** [s.replace(/\s+/g, ' ')]: every maximal run of white space becomes
    one space.  [inRun] records that the previous unit was white space. *)
Fixpoint collapseFrom (inRun : bool) (s : string) : string :=
  match s with
  | EmptyString => EmptyString
  | String c s' =>
      if isWhiteSpace c
      then (if inRun then collapseFrom true s'
            else String " " (collapseFrom true s'))
      else String c (collapseFrom false s')
  end.

Definition collapseWhiteSpace (s : string) : string := collapseFrom false s.

(** [s.includes(needle)] *)
Fixpoint includes (needle s : string) : bool :=
  String.prefix needle s ||
  match s with
  | EmptyString => false
  | String _ s' => includes needle s'
  end.

(** [arr.includes(x)] on an array of strings. *)
Definition arrayIncludes (x : string) (arr : list string) : bool :=
  existsb (String.eqb x) arr.

(** [arr.find(pred)] *)
Definition find {A} (pred : A → bool) (arr : list A) : option A :=
  List.find pred arr.

End JS.

(* ===================================================================== *)
(** ** Constants of the source *)
(* ===================================================================== *)

(** The selector of [CheckboxInput] is written without the quotes around
    its attribute value. *)
Module Selectors.
Definition FormContainer := ".search-attr-container".
Definition DateFrom := "#attribute_date_from".
Definition DateTo := "#attribute_date_to".
Definition SubmitButton := ".ui-button-secondary .ui-clickable".
Definition CheckboxInput := "input[type=checkbox]".
Definition TableRowLink := "table tbody tr td a".
Definition PaginationNext := "a.ui-paginator-next:not(.ui-state-disabled)".
Definition TableBody := "table tbody".
Definition ErrorMessage := ".tabs-info-message".
Definition DetailPanel := "section.panel".
Definition DetailsTable := "table.details-list".
End Selectors.

Definition TARGET_CHECKBOXES : list string :=
  [ "pwp_criteria_0";
    "collections_criteria_advanced_7";
    "collections_criteria_advanced_7_child_attrs_0" ].

(** [Object.entries(FIELD_MAPPINGS)]: the entries in insertion order. *)
Definition FIELD_MAPPINGS : list (string * string) :=
  [ ("Name/Title", "nameTitle");
    ("Status", "status");
    ("Application date", "applicationDate");
    ("Revelation date", "revelationDate");
    ("Application number", "applicationNumber");
    ("Category of rights", "categoryOfRights");
    ("Registration number", "registrationNumber");
    ("Trademark type", "trademarkType") ].

(* ===================================================================== *)
(** ** Detail extraction: [extractDetailData] *)
(* ===================================================================== *)

Module Detail.

(** A [td] of the details table, as far as the callback reads it: its
    class list, its [textContent], and the [textContent] of its first
    descendant matching [.highlight] (none: [querySelector] gave null). *)
Record Cell := mkCell {
  classList : list string;
  textContent : string;
  highlight : option string
}.

(** The [td] cells of one [tr], in document order. *)
Abbreviation Row := (list Cell).

(** A record: canonical key to string or null ([None] is null; a key
    that was never assigned is not in the map). *)
Abbreviation DetailRecord := (gmap string (option string)).

(** [s.trim().replace(/\s+/g, ' ')] *)
Definition normalize (s : string) : string :=
  JS.collapseWhiteSpace (JS.trim s).

(** [Object.entries(fieldMappings).find(([label]) =>
      labelText.includes(label))?.[1]] *)
Definition fieldNameOf (labelText : string) : option string :=
  snd <$> JS.find (λ entry, JS.includes (fst entry) labelText) FIELD_MAPPINGS.

(** Lines 148-153: [value] is the text of the highlight, trimmed
    (undefined without a highlight); when that is falsy, [value] becomes
    the normalized text of the whole cell. *)
Definition chosenText (valueCell : Cell) : string :=
  let value := from_option JS.trim EmptyString (highlight valueCell) in
  if JS.isEmpty value then normalize (textContent valueCell) else value.

(** Line 155: [value || null]. *)
Definition valueOf (valueCell : Cell) : option string :=
  let value := chosenText valueCell in
  if JS.isEmpty value then None else Some value.

Definition isLabel (labelCell : Cell) : bool :=
  JS.arrayIncludes "detail-title" (classList labelCell).

(** The body of the [for] loop for one pair of cells; [if (fieldName)]
    passes for a key that was found and is not the empty string. *)
Definition visitPair (labelCell valueCell : Cell) (result : DetailRecord)
  : DetailRecord :=
  if isLabel labelCell then
    match fieldNameOf (normalize (textContent labelCell)) with
    | Some fieldName =>
        if JS.isEmpty fieldName then result
        else <[fieldName := valueOf valueCell]> result
    | None => result
    end
  else result.

(** [for (let i = 0; i < cells.length; i += 2)]: a last cell without a
    partner has [valueCell] undefined and is skipped. *)
Fixpoint visitCells (cells : Row) (result : DetailRecord) : DetailRecord :=
  match cells with
  | labelCell :: valueCell :: rest =>
      visitCells rest (visitPair labelCell valueCell result)
  | _ => result
  end.

(** [rows.forEach(...)] starting from [{}]. *)
Definition extractDetailData (rows : list Row) : DetailRecord :=
  foldl (λ result row, visitCells row result) ∅ rows.

End Detail.

(* ===================================================================== *)
(** ** The page resource and the engine calls *)
(* ===================================================================== *)

Module Browser.

(** What a handler can throw: a wait of the engine that timed out, the
    host language's [TypeError] for a call of something that is not a
    function (both ordinary errors, which the scheduler retries), or the
    scheduler's [NonRetryableError]. *)
Inductive Error :=
| TimeoutError (call : string)
| TypeError (message : string)
| NonRetryableError (message : string).

(** The outcome of an asynchronous function: it returns, it throws, or
    (for the pagination loop only) it is still running when the fuel of
    the model is used up. *)
Inductive Result (A : Type) :=
| Ok (a : A)
| Throw (e : Error)
| Diverge.
Arguments Ok {A} a.
Arguments Throw {A} e.
Arguments Diverge {A}.

(** The engine and scheduler calls of the source that act on the page or
    suspend the handler, with the arguments the source passes.  A wait
    carries the [timeout] option of its call ([None]: the call names no
    timeout and the engine's default applies). *)
Inductive Call :=
| WaitForLoadState (state : string) (timeout : option Z)
| WaitForSelector (selector : string) (timeout : option Z)
| WaitForNavigation (timeout : option Z) (waitUntil : string)
| WaitForFunction (timeout : option Z)
| WaitForTimeout (ms : Z)
| Click (selector : string) (delay : option Z)
| ClickBox (index : nat)
| Press (key : string)
| TypeText (selector value : string) (delay : Z)
| EnqueueLinks (selector label : string)
| ClickNext.

(** An [input] of type checkbox: its [id] attribute (none: the attribute
    is missing), its checked state, and whether the callback of line 78
    finds an element: the input lies in a [.ui-chkbox] widget that has a
    [.ui-chkbox-box]. *)
Record Checkbox := mkCheckbox {
  id : option string;
  checked : bool;
  box : bool
}.

(** The search form: its checkboxes in document order, the text of its
    inputs by selector, the focused input and whether its whole text is
    selected. *)
Record FormState := mkForm {
  checkboxes : list Checkbox;
  fields : gmap string string;
  focus : option string;
  selection : bool
}.

(** How the registry answers: the network goes idle, the form container
    shows, the submission navigates, and what the page shows after the
    submission (a [.search-table], the text of a [.tabs-info-message]). *)
Record Site := mkSite {
  networkIdle : bool;
  formContainer : bool;
  navigationCompletes : bool;
  searchTable : bool;
  infoMessage : option string
}.

(** One page of the result list: the [href]s of its row links and
    whether its "next" control is there and enabled. *)
Record ResultPage := mkResultPage {
  rowLinks : list string;
  nextEnabled : bool
}.

(** The page of one handler invocation; [listing] is the result page on
    display followed by the pages that "next" leads to. *)
Record Page := mkPage {
  site : Site;
  form : FormState;
  listing : list ResultPage
}.

Record Request := mkRequest {
  url : string;
  label : string
}.

(** The state of one process run: the page of the current invocation,
    the closure variable [formFilled], the forms the registry received,
    the batches of requests handed to the scheduler (one per
    [enqueueLinks] call) and the calls made so far. *)
Record Crawl := mkCrawl {
  page : Page;
  formFilled : bool;
  submissions : list FormState;
  queue : list (list Request);
  calls : list Call
}.

Definition M (A : Type) : Type := Crawl → Result A * Crawl.

#[global] Instance M_ret : MRet M := λ A a s, (Ok a, s).

#[global] Instance M_bind : MBind M := λ A B k m s,
  match m s with
  | (Ok a, s') => k a s'
  | (Throw e, s') => (Throw e, s')
  | (Diverge, s') => (Diverge, s')
  end.

Definition throw {A} (e : Error) : M A := λ s, (Throw e, s).

Definition diverge {A} : M A := λ s, (Diverge, s).

Definition gets {A} (f : Crawl → A) : M A := λ s, (Ok (f s), s).

Definition modify (f : Crawl → Crawl) : M unit := λ s, (Ok tt, f s).

(** [for (const x of xs) body(x)] *)
Fixpoint forOf {A} (xs : list A) (body : A → M unit) : M unit :=
  match xs with
  | [] => mret tt
  | x :: xs' => body x;; forOf xs' body
  end.

(** *** State updates *)

Definition setPage (p : Page) (s : Crawl) : Crawl :=
  mkCrawl p (formFilled s) (submissions s) (queue s) (calls s).

Definition setForm (f : FormState) (s : Crawl) : Crawl :=
  setPage (mkPage (site (page s)) f (listing (page s))) s.

Definition setListing (l : list ResultPage) (s : Crawl) : Crawl :=
  setPage (mkPage (site (page s)) (form (page s)) l) s.

Definition setFormFilled (b : bool) (s : Crawl) : Crawl :=
  mkCrawl (page s) b (submissions s) (queue s) (calls s).

Definition addSubmission (f : FormState) (s : Crawl) : Crawl :=
  mkCrawl (page s) (formFilled s) (submissions s ++ [f]) (queue s) (calls s).

Definition addBatch (b : list Request) (s : Crawl) : Crawl :=
  mkCrawl (page s) (formFilled s) (submissions s) (queue s ++ [b]) (calls s).

Definition addCall (c : Call) (s : Crawl) : Crawl :=
  mkCrawl (page s) (formFilled s) (submissions s) (queue s) (calls s ++ [c]).

Definition record (c : Call) : M unit := modify (addCall c).

(** *** Waits *)

(** A wait returns when its condition holds on the page and throws the
    engine's timeout error otherwise. *)
Definition awaitCondition (call : string) (holds : bool) : M unit :=
  if holds then mret tt else throw (TimeoutError call).

Definition waitForLoadState (state : string) (timeout : option Z) : M unit :=
  record (WaitForLoadState state timeout);;
  idle ← gets (λ s, networkIdle (site (page s)));
  awaitCondition "waitForLoadState" idle.

(** Whether a selector the source waits for matches on the page. *)
Definition matches (selector : string) (s : Crawl) : bool :=
  if String.eqb selector Selectors.FormContainer
  then formContainer (site (page s))
  else if String.eqb selector ".search-table"
  then searchTable (site (page s))
  else if String.eqb selector Selectors.ErrorMessage
  then bool_decide (is_Some (infoMessage (site (page s))))
  else false.

Definition waitForSelector (selector : string) (timeout : option Z) : M unit :=
  record (WaitForSelector selector timeout);;
  found ← gets (matches selector);
  awaitCondition "waitForSelector" found.

(** [page.waitForTimeout(ms)]: a fixed delay. *)
Definition waitForTimeout (ms : Z) : M unit := record (WaitForTimeout ms).

(** [Promise.all([page.waitForNavigation(options), action])]: the wait is
    set up, the action runs, and the whole settles with the navigation. *)
Definition withNavigation (timeout : option Z) (waitUntil : string)
    (action : M unit) : M unit :=
  record (WaitForNavigation timeout waitUntil);;
  action;;
  done ← gets (λ s, navigationCompletes (site (page s)));
  awaitCondition "waitForNavigation" done.

(** [page.waitForFunction(() => document.querySelector('.search-table')
      || document.querySelector('.tabs-info-message'))] *)
Definition waitForFunction (timeout : option Z) : M unit :=
  record (WaitForFunction timeout);;
  found ← gets (λ s, matches ".search-table" s
                     || matches Selectors.ErrorMessage s);
  awaitCondition "waitForFunction" found.

(** *** Mouse and keyboard *)

Definition fieldText (selector : string) (f : FormState) : string :=
  default EmptyString (fields f !! selector).

Fixpoint removeLast (s : string) : string :=
  match s with
  | EmptyString => EmptyString
  | String c EmptyString => EmptyString
  | String c s' => String c (removeLast s')
  end.

(** [page.click(selector, { delay })]: the submit control hands the form
    to the registry; any other target takes the focus, with nothing
    selected. *)
Definition click (selector : string) (delay : option Z) : M unit :=
  record (Click selector delay);;
  if String.eqb selector Selectors.SubmitButton
  then f ← gets (λ s, form (page s)); modify (addSubmission f)
  else modify (λ s, let f := form (page s) in
                    setForm (mkForm (checkboxes f) (fields f)
                                    (Some selector) false) s).

(** [page.keyboard.press(key)] for the two keys of the source. *)
Definition press (key : string) : M unit :=
  record (Press key);;
  modify (λ s,
    let f := form (page s) in
    match focus f with
    | None => s
    | Some selector =>
        if String.eqb key "Control+A"
        then setForm (mkForm (checkboxes f) (fields f) (focus f) true) s
        else if String.eqb key "Backspace"
        then let text := if selection f then EmptyString
                         else removeLast (fieldText selector f) in
             setForm (mkForm (checkboxes f) (<[selector := text]> (fields f))
                             (focus f) false) s
        else s
    end).

(** [page.type(selector, value, { delay })]: focuses the input and sends
    the characters; typing replaces a selection. *)
Definition type (selector value : string) (delay : Z) : M unit :=
  record (TypeText selector value delay);;
  modify (λ s,
    let f := form (page s) in
    let replaced :=
      selection f && bool_decide (focus f = Some selector) in
    let before := if replaced then EmptyString else fieldText selector f in
    setForm (mkForm (checkboxes f)
                    (<[selector := before +:+ value]> (fields f))
                    (Some selector) false) s).

(** [box.click()] on the box of the checkbox with the given handle: the
    widget flips that checkbox. *)
Definition toggle (checkbox : Checkbox) : Checkbox :=
  mkCheckbox (id checkbox) (negb (checked checkbox)) (box checkbox).

Definition clickBox (index : nat) : M unit :=
  record (ClickBox index);;
  modify (λ s,
    let f := form (page s) in
    setForm (mkForm (alter toggle index (checkboxes f)) (fields f)
                    (focus f) (selection f)) s).

(** *** The result list *)

(** [enqueueLinks({ selector, label })]: one request per row link of the
    result page on display. *)
Definition enqueueLinks (selector label : string) : M unit :=
  record (EnqueueLinks selector label);;
  modify (λ s,
    let links := from_option rowLinks [] (head (listing (page s))) in
    addBatch (map (λ href, mkRequest href label) links) s).

(** [page.$(Selectors.PaginationNext)]: whether an enabled "next" control
    is on the page. *)
Definition queryNext : M bool :=
  gets (λ s, from_option nextEnabled false (head (listing (page s)))).

(** [nextButton.click()]: the following result page comes on display; a
    site with no further page keeps the current one. *)
Definition clickNext : M unit :=
  record ClickNext;;
  modify (λ s,
    match listing (page s) with
    | _ :: (next :: rest) => setListing (next :: rest) s
    | _ => s
    end).

End Browser.

(* ===================================================================== *)
(** ** The search form: [setCheckboxes], [fillDateField], [performSearch] *)
(* ===================================================================== *)

Module Form.
Import Browser.

(** [TARGET_CHECKBOXES.includes(id)] *)
Definition shouldBeChecked (id : string) : bool :=
  JS.arrayIncludes id TARGET_CHECKBOXES.

(** The body of the loop of [setCheckboxes] for the handle at [index];
    the attribute and the checked state are read from the live page.
    [evaluateHandle] always gives a handle object, so [if (box)] always
    passes: where the callback found an element the handle is that
    element's and [box.click()] clicks it; where it found none the
    handle has no [click] and the call throws. *)
Definition visitCheckbox (index : nat) : M unit :=
  current ← gets (λ s, checkboxes (form (page s)) !! index);
  match current with
  | None => mret tt
  | Some checkbox =>
      match id checkbox with
      | None => mret tt
      | Some id =>
          if JS.isEmpty id then mret tt
          else if negb (Bool.eqb (checked checkbox) (shouldBeChecked id))
          then (if box checkbox
                then clickBox index;; waitForTimeout 100
                else throw (TypeError "box.click is not a function"))
          else mret tt
      end
  end.

(** [page.$$(Selectors.CheckboxInput)] gives one handle per checkbox. *)
Definition setCheckboxes : M unit :=
  n ← gets (λ s, List.length (checkboxes (form (page s))));
  forOf (seq 0 n) visitCheckbox.

Definition fillDateField (selector value : string) : M unit :=
  click selector None;;
  press "Control+A";;
  press "Backspace";;
  type selector value 100;;
  waitForTimeout 300.

(** Lines 114-116: the lower-cased, trimmed text of the message element,
    or null when [$eval] finds no element and the [catch] applies. *)
Definition readErrorText : M (option string) :=
  gets (λ s, (λ text, JS.trim (JS.toLowerCase text))
               <$> infoMessage (site (page s))).

(** [errorText?.includes(phrase)]: undefined, hence falsy, on null. *)
Definition mentions (phrase : string) (errorText : option string) : bool :=
  from_option (JS.includes phrase) false errorText.

(** Lines 118-124. *)
Definition classify (errorText : option string) : M unit :=
  if mentions "no results found" errorText
  then throw (NonRetryableError "No results found for the given criteria")
  else if mentions "too many results found" errorText
  then throw (NonRetryableError
                "Too many results found. Please narrow your search criteria")
  else mret tt.

Definition performSearch (startDate endDate : string) : M unit :=
  waitForLoadState "networkidle" None;;
  waitForSelector Selectors.FormContainer (Some 20000%Z);;
  setCheckboxes;;
  fillDateField Selectors.DateFrom endDate;;
  fillDateField Selectors.DateTo startDate;;
  withNavigation (Some 15000%Z) "domcontentloaded"
    (click Selectors.SubmitButton (Some 100%Z));;
  waitForFunction None;;
  errorText ← readErrorText;
  classify errorText.

End Form.

(* ===================================================================== *)
(** ** The listing handler: the [formFilled] guard and the pagination *)
(* ===================================================================== *)

Module Listing.
Import Browser.

(** The [do ... while (hasNextPage)] loop; [fuel] bounds the number of
    iterations the model follows. *)
Fixpoint paginate (fuel : nat) : M unit :=
  match fuel with
  | O => diverge
  | S fuel' =>
      enqueueLinks Selectors.TableRowLink "detail";;
      nextButton ← queryNext;
      if nextButton : bool
      then clickNext;; waitForTimeout 1500;; paginate fuel'
      else mret tt
  end.

(** The callback given to [router.addDefaultHandler]; [startDate] and
    [endDate] are the variables it closes over. *)
Definition defaultHandler (startDate endDate : string) (fuel : nat)
    (requestUrl : string) : M unit :=
  filled ← gets formFilled;
  (if JS.includes "/search/advanced-search" requestUrl && negb filled
   then Form.performSearch startDate endDate;; modify (setFormFilled true)
   else mret tt);;
  paginate fuel.

(** The scheduler dispatches a listing task: the handler runs on a page
    of its own; what it throws stays with the scheduler. *)
Definition dispatch (startDate endDate : string) (fuel : nat)
    (task : string * Page) (s : Crawl) : Crawl :=
  snd (defaultHandler startDate endDate fuel (fst task) (setPage (snd task) s)).

(** A process run as far as the listing handler goes: its invocations in
    order (first dispatch and retries alike). *)
Definition run (startDate endDate : string) (fuel : nat)
    (tasks : list (string * Page)) (s : Crawl) : Crawl :=
  foldl (λ s task, dispatch startDate endDate fuel task s) s tasks.

(** The state at process start: [let formFilled = false]. *)
Definition start (p : Page) : Crawl := mkCrawl p false [] [] [].

Definition BASE_URL : string :=
  "https://ewyszukiwarka.pue.uprp.gov.pl/search/advanced-search".

(** The options of the [PlaywrightCrawler] (lines 227-232): the bounds,
    in seconds, that the scheduler puts on a navigation and on one run
    of a request handler. *)
Definition navigationTimeoutSecs : Z := 60.
Definition requestHandlerTimeoutSecs : Z := 180.

End Listing.

(* ===================================================================== *)
(** ** The detail handler *)
(* ===================================================================== *)

Module DetailTask.
Import Browser.

(** A detail page as its handler meets it: whether the network goes
    idle, whether the detail panel shows, and the rows of the details
    table. *)
Record DetailPage := mkDetailPage {
  idle : bool;
  panel : bool;
  rows : list Detail.Row
}.

(** The callback given to [router.addHandler('detail', ...)]: its calls
    and the record it pushes to the dataset, if any.  A wait that times
    out is caught and logged; a record without keys is not pushed. *)
Definition detailHandler (p : DetailPage)
  : list Call * option Detail.DetailRecord :=
  let calls1 := [ WaitForLoadState "networkidle" (Some 20000%Z) ] in
  if negb (idle p) then (calls1, None)
  else
    let calls2 := calls1 ++ [ WaitForSelector Selectors.DetailPanel
                                              (Some 15000%Z) ] in
    if negb (panel p) then (calls2, None)
    else
      let calls3 := calls2 ++ [ WaitForTimeout 1000 ] in
      let data := Detail.extractDetailData (rows p) in
      if bool_decide (data = ∅) then (calls3, None) else (calls3, Some data).

End DetailTask.

(* ===================================================================== *)
(** ** Command-line arguments: [validateArgs] *)
(* ===================================================================== *)

Module Args.

(** [validateArgs] returns the two strings or ends the process through
    [process.exit(code)] after a line on the error stream. *)
Inductive Outcome :=
| Returned (startDate endDate : string)
| Exited (code : Z) (message : string).

Section WithParser.

(** [parse(dateStr, 'yyyy-MM-dd', new Date())] of the date library, as
    far as the source reads it: the time value of the parsed date, or
    [None] for an invalid date (whose [getTime()] is NaN). *)
Variable parse : string → option Z.

Definition isValidDate (dateStr : string) : bool :=
  bool_decide (is_Some (parse dateStr)).

(** [!x] on an argument: undefined or the empty string. *)
Definition missing (arg : option string) : bool :=
  from_option JS.isEmpty true arg.

(** [a > b] on two dates compares their time values; a comparison with
    NaN is false. *)
Definition laterThan (a b : option Z) : bool :=
  match a, b with
  | Some ta, Some tb => (tb <? ta)%Z
  | _, _ => false
  end.

(** [argv] is [process.argv]; the first two entries are the interpreter
    and the script. *)
Definition validateArgs (argv : list string) : Outcome :=
  let args := drop 2 argv in
  let startDate := args !! 0%nat in
  let endDate := args !! 1%nat in
  if missing startDate || missing endDate
  then Exited 1 "Usage: npm start <start_date:YYYY-MM-DD> <end_date:YYYY-MM-DD>"
  else
    let startDate := default EmptyString startDate in
    let endDate := default EmptyString endDate in
    if negb (isValidDate startDate) || negb (isValidDate endDate)
    then Exited 1 "Invalid date format. Use YYYY-MM-DD."
    else if laterThan (parse startDate) (parse endDate)
    then Exited 1 "Start date must be before or equal to end date."
    else Returned startDate endDate.

End WithParser.

(** *** A parser for the format of the specification *)

Definition digit (c : ascii) : option Z :=
  let n := N_of_ascii c in
  if ((48 <=? n) && (n <=? 57))%N then Some (Z.of_N n - 48)%Z else None.

Definition isLeapYear (y : Z) : bool :=
  ((y mod 4 =? 0) && (negb (y mod 100 =? 0) || (y mod 400 =? 0)))%Z.

Definition daysInMonth (y m : Z) : Z :=
  if (m =? 2)%Z then (if isLeapYear y then 29 else 28)%Z
  else if ((m =? 4) || (m =? 6) || (m =? 9) || (m =? 11))%Z then 30%Z
  else 31%Z.

(** Days from 1970-01-01 to the given date of the proleptic Gregorian
    calendar. *)
Definition daysFromCivil (y m d : Z) : Z :=
  let y' := (if m <=? 2 then y - 1 else y)%Z in
  let era := (y' / 400)%Z in
  let yoe := (y' - era * 400)%Z in
  let mp := ((m + 9) mod 12)%Z in
  let doy := ((153 * mp + 2) / 5 + d - 1)%Z in
  let doe := (yoe * 365 + yoe / 4 - yoe / 100 + doy)%Z in
  (era * 146097 + doe - 719468)%Z.

(** Modelled from the spec: the date library behind [parse] is not part
    of the repository.  This parser reads the format [YYYY-MM-DD] of the
    specification to the letter: four digits, a dash, two digits, a dash,
    two digits, naming a day of the calendar; its time value is that
    day's midnight in milliseconds. *)
Definition parseStrict (dateStr : string) : option Z :=
  match list_ascii_of_string dateStr with
  | [y1; y2; y3; y4; dash1; m1; m2; dash2; d1; d2] =>
      if negb (Ascii.eqb dash1 "-" && Ascii.eqb dash2 "-") then None
      else
        y1 ← digit y1; y2 ← digit y2; y3 ← digit y3; y4 ← digit y4;
        m1 ← digit m1; m2 ← digit m2; d1 ← digit d1; d2 ← digit d2;
        let y := (1000 * y1 + 100 * y2 + 10 * y3 + y4)%Z in
        let m := (10 * m1 + m2)%Z in
        let d := (10 * d1 + d2)%Z in
        if ((1 <=? m) && (m <=? 12) && (1 <=? d) && (d <=? daysInMonth y m))%Z
        then Some (daysFromCivil y m d * 86400000)%Z
        else None
  | _ => None
  end.

(** *** The date library's reading of the pattern *)

(** The longest run of at most [n] digits at the start of a list of code
    units, as a number, with the units after it; [None] when the list
    does not start with a digit.  [acc] is the number read so far and
    [seen] tells whether a digit was read. *)
Fixpoint digitsUpTo (n : nat) (acc : Z) (seen : bool) (units : list ascii)
  : option (Z * list ascii) :=
  match n, units with
  | S n', c :: rest =>
      match digit c with
      | Some d => digitsUpTo n' (10 * acc + d)%Z true rest
      | None => if seen then Some (acc, units) else None
      end
  | _, _ => if seen then Some (acc, units) else None
  end.

Definition dashThen (units : list ascii) : option (list ascii) :=
  match units with
  | c :: rest => if Ascii.eqb c "-" then Some rest else None
  | [] => None
  end.

(** The [parse] of the date library for the pattern [yyyy-MM-dd], as
    the library documents its tokens; it is not part of the repository.
    A numeric token of n letters reads one to n digits; the year must be
    positive, the month 1 to 12, the day one of that month in that year;
    the dashes must be there, and only white space may follow the day.
    The time value is the day's midnight in milliseconds. *)
Definition parseLenient (dateStr : string) : option Z :=
  '(y, units) ← digitsUpTo 4 0 false (list_ascii_of_string dateStr);
  units ← dashThen units;
  '(m, units) ← digitsUpTo 2 0 false units;
  units ← dashThen units;
  '(d, units) ← digitsUpTo 2 0 false units;
  if ((0 <? y) && (1 <=? m) && (m <=? 12) && (1 <=? d)
      && (d <=? daysInMonth y m))%Z
     && forallb JS.isWhiteSpace units
  then Some (daysFromCivil y m d * 86400000)%Z
  else None.

End Args.

(* ===================================================================== *)
(** ** Vocabulary of the properties *)
(* ===================================================================== *)

Module DetailSpec.
Import Detail.

(** The cells of a row taken two by two, as the [for] loop pairs them. *)
Fixpoint pairsOf (cells : Row) : list (Cell * Cell) :=
  match cells with
  | labelCell :: valueCell :: rest => (labelCell, valueCell) :: pairsOf rest
  | _ => []
  end.

(** The key a pair is stored under, with its value cell: the label cell
    carries the label styling and its text selects a mapping entry. *)
Definition matched (pair : Cell * Cell) : option (string * Cell) :=
  if isLabel (fst pair)
  then (λ fieldName, (fieldName, snd pair))
         <$> fieldNameOf (normalize (textContent (fst pair)))
  else None.

Definition matchesOfRow (cells : Row) : list (string * Cell) :=
  omap matched (pairsOf cells).

(** All matched pairs of a table, in document order. *)
Definition matchesOf (rows : list Row) : list (string * Cell) :=
  rows ≫= matchesOfRow.

(** What one matched pair does to the record. *)
Definition store (result : DetailRecord) (entry : string * Cell)
  : DetailRecord :=
  <[fst entry := valueOf (snd entry)]> result.

(** The entry for [key] that comes last in an association list. *)
Fixpoint lastFor {X} (key : string) (entries : list (string * X)) : option X :=
  match entries with
  | [] => None
  | (key', x) :: rest =>
      match lastFor key rest with
      | Some y => Some y
      | None => if String.eqb key key' then Some x else None
      end
  end.

(** [label] is the first entry of the mapping table, in table order,
    that [labelText] contains, and [key] is its canonical key. *)
Definition firstMapping (labelText key : string) : Prop :=
  ∃ (i : nat) (label : string),
    FIELD_MAPPINGS !! i = Some (label, key)
    ∧ JS.includes label labelText = true
    ∧ ∀ (j : nat) (entry : string * string),
        (j < i)%nat → FIELD_MAPPINGS !! j = Some entry →
        JS.includes (fst entry) labelText = false.

(** A row holds, at an even position, a label-styled cell followed by
    [valueCell], and the label's normalized text selects [key]. *)
Definition pairFor (rows : list Row) (key : string) (valueCell : Cell) : Prop :=
  ∃ (row : Row) (j : nat) (labelCell : Cell),
    row ∈ rows
    ∧ row !! (2 * j)%nat = Some labelCell
    ∧ row !! (2 * j + 1)%nat = Some valueCell
    ∧ isLabel labelCell = true
    ∧ firstMapping (normalize (textContent labelCell)) key.

(** Some row has a label-styled cell whose normalized text contains the
    mapping label of [key]. *)
Definition labelSeen (rows : list Row) (key : string) : Prop :=
  ∃ (row : Row) (cell : Cell) (label : string),
    row ∈ rows ∧ cell ∈ row
    ∧ isLabel cell = true
    ∧ (label, key) ∈ FIELD_MAPPINGS
    ∧ JS.includes label (normalize (textContent cell)) = true.

(** The label text contains the labels of two or more mapping entries. *)
Definition ambiguous (labelText : string) : bool :=
  (1 <? List.length
          (filter (λ entry, JS.includes (fst entry) labelText = true)
                  FIELD_MAPPINGS))%nat.

(** All pairs stored under one key carry the same value. *)
Definition consistent (rows : list Row) : Prop :=
  ∀ (key : string) (v1 v2 : Cell),
    (key, v1) ∈ matchesOf rows → (key, v2) ∈ matchesOf rows →
    valueOf v1 = valueOf v2.

End DetailSpec.

Module FormSpec.
Import Browser.

(** The loop of [setCheckboxes] clicks the box of this checkbox: it has
    a non-empty [id], its state disagrees with the target set, and its
    widget has a box. *)
Definition needsToggle (checkbox : Checkbox) : bool :=
  match id checkbox with
  | None => false
  | Some id =>
      negb (JS.isEmpty id)
      && negb (Bool.eqb (checked checkbox) (Form.shouldBeChecked id))
      && box checkbox
  end.

(** The loop of [setCheckboxes] stops at this checkbox with an error: it
    has a non-empty [id], its state disagrees with the target set, and
    there is no box to click. *)
Definition blocked (checkbox : Checkbox) : bool :=
  match id checkbox with
  | None => false
  | Some id =>
      negb (JS.isEmpty id)
      && negb (Bool.eqb (checked checkbox) (Form.shouldBeChecked id))
      && negb (box checkbox)
  end.

(** No checkbox of the list stops the loop: every identified checkbox
    whose state disagrees with the target set has a box to click. *)
Definition passable (boxes : list Checkbox) : Prop :=
  ∀ checkbox, checkbox ∈ boxes → blocked checkbox = false.

(** How the loop ends on a list of checkboxes. *)
Definition loopOutcome (boxes : list Checkbox) : Result unit :=
  if existsb blocked boxes
  then Throw (TypeError "box.click is not a function")
  else Ok tt.

(** The checkbox as the loop leaves it when it passes it. *)
Definition settle (checkbox : Checkbox) : Checkbox :=
  if needsToggle checkbox then toggle checkbox else checkbox.

(** The checkboxes as the loop leaves them: settled up to the first one
    that stops it, untouched from there on. *)
Fixpoint settleAll (boxes : list Checkbox) : list Checkbox :=
  match boxes with
  | [] => []
  | checkbox :: rest =>
      if blocked checkbox then checkbox :: rest
      else settle checkbox :: settleAll rest
  end.

(** The calls the loop makes on the checkboxes from [index] on. *)
Fixpoint togglesFrom (index : nat) (boxes : list Checkbox) : list Call :=
  match boxes with
  | [] => []
  | checkbox :: rest =>
      if blocked checkbox then []
      else (if needsToggle checkbox
            then [ClickBox index; WaitForTimeout 100] else [])
           ++ togglesFrom (S index) rest
  end.

Definition addCalls (cs : list Call) (s : Crawl) : Crawl :=
  mkCrawl (page s) (formFilled s) (submissions s) (queue s) (calls s ++ cs).

Definition setBoxes (boxes : list Checkbox) (s : Crawl) : Crawl :=
  let f := form (page s) in
  setForm (mkForm boxes (fields f) (focus f) (selection f)) s.

(** The state one application of [setCheckboxes] leads to. *)
Definition afterSetCheckboxes (s : Crawl) : Crawl :=
  let boxes := checkboxes (form (page s)) in
  addCalls (togglesFrom 0 boxes) (setBoxes (settleAll boxes) s).

(** The state [fillDateField selector value] leads to. *)
Definition afterFill (selector value : string) (s : Crawl) : Crawl :=
  let f := form (page s) in
  addCalls [ Click selector None; Press "Control+A"; Press "Backspace";
             TypeText selector value 100; WaitForTimeout 300 ]
    (setForm (mkForm (checkboxes f) (<[selector := value]> (fields f))
                     (Some selector) false) s).

(** The state in which [performSearch] clicks the submit control: after
    the two waits, the checkboxes, the two date fields and the set-up of
    the navigation wait. *)
Definition atSubmit (startDate endDate : string) (s : Crawl) : Crawl :=
  addCall (WaitForNavigation (Some 15000%Z) "domcontentloaded")
    (afterFill Selectors.DateTo startDate
       (afterFill Selectors.DateFrom endDate
          (afterSetCheckboxes
             (addCall (WaitForSelector Selectors.FormContainer (Some 20000%Z))
                (addCall (WaitForLoadState "networkidle" None) s))))).

(** The state right after the click on the submit control. *)
Definition submitted (startDate endDate : string) (s : Crawl) : Crawl :=
  let s' := atSubmit startDate endDate s in
  addSubmission (form (page s'))
    (addCall (Click Selectors.SubmitButton (Some 100%Z)) s').

(** What [performSearch] reads as [errorText] on the page. *)
Definition errorTextOf (s : Crawl) : option string :=
  (λ text, JS.trim (JS.toLowerCase text)) <$> infoMessage (site (page s)).

(** The calls of a log that click the submit control. *)
Definition isSubmitClick (c : Call) : bool :=
  match c with
  | Click selector _ => String.eqb selector Selectors.SubmitButton
  | _ => false
  end.

Definition submitClicks (log : list Call) : nat :=
  List.length (List.filter isSubmitClick log).

(** A call that suspends the handler until a condition holds or a time
    has passed. *)
Definition suspends (c : Call) : bool :=
  match c with
  | WaitForLoadState _ _ | WaitForSelector _ _ | WaitForNavigation _ _
  | WaitForFunction _ | WaitForTimeout _ => true
  | _ => false
  end.

(** The call itself bounds its wait: it passes a timeout, or it is a
    delay of a fixed length. *)
Definition explicitlyBounded (c : Call) : bool :=
  match c with
  | WaitForLoadState _ timeout | WaitForSelector _ timeout
  | WaitForNavigation timeout _ | WaitForFunction timeout =>
      bool_decide (is_Some timeout)
  | _ => true
  end.

End FormSpec.

Module ListingSpec.
Import Browser.

(** The requests one [enqueueLinks] call makes on a result page. *)
Definition batchOf (p : ResultPage) : list Request :=
  map (λ href, mkRequest href "detail") (rowLinks p).

(** The iterations of the pagination loop a log shows: each iteration
    starts with one [enqueueLinks] call. *)
Definition isEnqueue (c : Call) : bool :=
  match c with EnqueueLinks _ _ => true | _ => false end.

Definition iterations (log : list Call) : nat :=
  List.length (List.filter isEnqueue log).

(** The calls of the pagination loop over the pages before the last. *)
Definition turnPage : list Call :=
  [ EnqueueLinks Selectors.TableRowLink "detail"; ClickNext;
    WaitForTimeout 1500 ].

(** The state after the [enqueueLinks] call of one iteration. *)
Definition harvested (s : Crawl) : Crawl :=
  addBatch (from_option batchOf [] (head (listing (page s))))
    (addCall (EnqueueLinks Selectors.TableRowLink "detail") s).

(** The state after the click on "next" and the settle delay. *)
Definition turned (s : Crawl) : Crawl :=
  let s1 := addCall ClickNext (harvested s) in
  addCall (WaitForTimeout 1500)
    match listing (page s1) with
    | _ :: (next :: rest) => setListing (next :: rest) s1
    | _ => s1
    end.

End ListingSpec.

(* ===================================================================== *)
(** ** Sample pages *)
(* ===================================================================== *)

Module Samples.
Import Browser.

(** A details table with a lone label cell, and one whose label names
    two mapping entries at once. *)
Definition lone_label_rows : list Detail.Row :=
  [ [ Detail.mkCell ["detail-title"] "Status" None ] ].

Definition double_label_rows : list Detail.Row :=
  [ [ Detail.mkCell ["detail-title"] "Application date / Revelation date" None;
      Detail.mkCell [] "2024-01-15" None ] ].

(** A details table with an empty application date and a row whose
    label is not in the mapping table. *)
Definition blank_date_rows : list Detail.Row :=
  [ [ Detail.mkCell ["detail-title"] "Application date" None;
      Detail.mkCell [] "   " None ];
    [ Detail.mkCell ["detail-title"] "Owner" None;
      Detail.mkCell [] "ACME" None ] ].

(** A details page on which the title cell highlights part of its text. *)
Definition highlighted_rows : list Detail.Row :=
  [ [ Detail.mkCell ["detail-title"] "Name/Title:" None;
      Detail.mkCell [] "  ACME   corp " (Some " ACME ") ] ].

(** Two rows under the same label, in either order. *)
Definition status_rows : list Detail.Row :=
  [ [ Detail.mkCell ["detail-title"] "Status" None;
      Detail.mkCell [] "registered" None ];
    [ Detail.mkCell ["detail-title"] "Status" None;
      Detail.mkCell [] "expired" None ] ].

Definition status_rows_swapped : list Detail.Row :=
  [ [ Detail.mkCell ["detail-title"] "Status" None;
      Detail.mkCell [] "expired" None ];
    [ Detail.mkCell ["detail-title"] "Status" None;
      Detail.mkCell [] "registered" None ] ].

Definition distinct_rows : list Detail.Row :=
  [ [ Detail.mkCell ["detail-title"] "Status" None;
      Detail.mkCell [] "registered" None ];
    [ Detail.mkCell ["detail-title"] "Name/Title" None;
      Detail.mkCell [] "ACME" None ] ].

Definition distinct_rows_swapped : list Detail.Row :=
  [ [ Detail.mkCell ["detail-title"] "Name/Title" None;
      Detail.mkCell [] "ACME" None ];
    [ Detail.mkCell ["detail-title"] "Status" None;
      Detail.mkCell [] "registered" None ] ].

(** A registry that answers every step; [message] is the text of its
    informational message element, if it shows one. *)
Definition answering (message : option string) : Site :=
  mkSite true true true (bool_decide (message = None)) message.

(** A form with one target checkbox unchecked, one other checkbox
    checked, one checkbox without [id], and a stale date. *)
Definition stale_form : FormState :=
  mkForm [ mkCheckbox (Some "pwp_criteria_0") false true;
           mkCheckbox (Some "collections_criteria_advanced_3") true true;
           mkCheckbox None true true ]
         {[ Selectors.DateFrom := "2020-05-05" ]} None false.

(** A page whose message names both conditions. *)
Definition both_phrases_page : Page :=
  mkPage (answering (Some "  Too many results found; NO Results Found. "))
         stale_form [].

(** A form whose target checkbox is a plain input, outside any
    [.ui-chkbox] widget. *)
Definition boxless_form : FormState :=
  mkForm [ mkCheckbox (Some "pwp_criteria_0") false false ] ∅ None false.

Definition boxless_page : Page :=
  mkPage (answering None) boxless_form [].

(** A result list of two pages, with three rows and one row. *)
Definition two_result_pages : list ResultPage :=
  [ mkResultPage ["/details/1"; "/details/2"; "/details/3"] true;
    mkResultPage ["/details/4"] false ].

Definition results_page : Page :=
  mkPage (answering None) stale_form two_result_pages.



(** A page that, once the form is submitted, shows neither a result
    table nor a message. *)
Definition silent_page : Page :=
  mkPage (mkSite true true true false None) stale_form [].

(** A detail page with a title and a status. *)
Definition acme_detail : DetailTask.DetailPage :=
  DetailTask.mkDetailPage true true
    [ [ Detail.mkCell ["detail-title"] "Name/Title" None;
        Detail.mkCell [] "ACME" None ];
      [ Detail.mkCell ["detail-title"] "Status" None;
        Detail.mkCell [] "registered" None ] ].

(** The command line of a run over January 2024, and of a run with the
    dates the wrong way round. *)
Definition january_argv : list string :=
  [ "node"; "crawler.js"; "2024-01-01"; "2024-01-31" ].

Definition reversed_argv : list string :=
  [ "node"; "crawler.js"; "2024-01-31"; "2024-01-01" ].

Definition malformed_argv : list string :=
  [ "node"; "crawler.js"; "2024-01-01"; "31.01.2024" ].

(** A command line whose start date has a month and a day of one digit. *)
Definition short_month_argv : list string :=
  [ "node"; "crawler.js"; "2024-1-5"; "2024-01-31" ].

End Samples.

(* ===================================================================== *)
(** ** Vocabulary of the further properties *)
(* ===================================================================== *)

Module TextSpec.

(** The first code unit of a string is white space. *)
Definition startsWithSpace (s : string) : bool :=
  match s with
  | EmptyString => false
  | String c _ => JS.isWhiteSpace c
  end.

(** The last code unit of a string is white space. *)
Fixpoint endsWithSpace (s : string) : bool :=
  match s with
  | EmptyString => false
  | String c EmptyString => JS.isWhiteSpace c
  | String _ s' => endsWithSpace s'
  end.

End TextSpec.

Module MoreSamples.
Import Browser.

(** A details table none of whose cells carries the label styling. *)
Definition unstyled_rows : list Detail.Row :=
  [ [ Detail.mkCell ["detail-value"] "Status" None;
      Detail.mkCell [] "registered" None ] ].

(** A value cell whose text is padded and broken over lines. *)
Definition padded_cell : Detail.Cell :=
  Detail.mkCell [] "  ACME   corp  " None.

(** A page on which the form container never shows. *)
Definition formless_page : Page :=
  mkPage (mkSite true false true true None) Samples.stale_form
         Samples.two_result_pages.

(** A page that answers with a message about something else. *)
Definition notice_page : Page :=
  mkPage (Samples.answering (Some "Search completed"))
         Samples.stale_form Samples.two_result_pages.

(** A page that answers with an empty result. *)
Definition empty_result_page : Page :=
  mkPage (Samples.answering (Some "No results found"))
         Samples.stale_form Samples.two_result_pages.

(** A result page whose "next" control stays enabled although no page
    follows. *)
Definition stuck_listing : list ResultPage :=
  [ mkResultPage ["/details/9"] true ].

Definition stuck_page : Page :=
  mkPage (Samples.answering None) Samples.stale_form stuck_listing.

(** A page without a result table. *)
Definition bare_page : Page :=
  mkPage (Samples.answering None) Samples.stale_form [].

(** A detail page whose table matches no mapping entry. *)
Definition foreign_detail : DetailTask.DetailPage :=
  DetailTask.mkDetailPage true true
    [ [ Detail.mkCell ["detail-title"] "Owner" None;
        Detail.mkCell [] "ACME" None ] ].

End MoreSamples.

(* ===================================================================== *)
(** * Properties *)
(* ===================================================================== *)

(** ** The model on concrete inputs *)

Example trim_example : JS.trim "  Hello  World  " = "Hello  World".
Proof. reflexivity. Qed.

Example normalize_example :
  Detail.normalize "  Application   date: " = "Application date:".
Proof. reflexivity. Qed.

Example toLowerCase_example :
  JS.toLowerCase "No Results FOUND" = "no results found".
Proof. reflexivity. Qed.

Example fieldNameOf_example :
  Detail.fieldNameOf "Application number:" = Some "applicationNumber".
Proof. reflexivity. Qed.

(** The listing task over January 2024 on a result list of two pages
    with three rows and one row: the handler returns, the guard is set,
    and four detail requests are enqueued in two batches. *)
Example listing_scenario :
  let r := Listing.defaultHandler "2024-01-01" "2024-01-31" 5
             Listing.BASE_URL (Listing.start Samples.results_page) in
  fst r = Browser.Ok tt
  ∧ Browser.formFilled (snd r) = true
  ∧ (Browser.url <$> List.concat (Browser.queue (snd r)))
    = [ "/details/1"; "/details/2"; "/details/3"; "/details/4" ].
Proof. by vm_compute. Qed.

(** A detail page with a title and a status gives a record of two keys. *)
Example detail_scenario :
  snd (DetailTask.detailHandler Samples.acme_detail)
  = Some {[ "nameTitle" := Some "ACME"; "status" := Some "registered" ]}.
Proof. by vm_compute. Qed.

(** ** Detail extraction *)

Module DetailFacts.
Import Detail DetailSpec.

(** Every canonical key of the mapping table is a non-empty string. *)
Lemma fieldNameOf_nonempty labelText fieldName :
  fieldNameOf labelText = Some fieldName → JS.isEmpty fieldName = false.
Proof.
  unfold fieldNameOf, JS.find. intros Hfind.
  apply fmap_Some in Hfind as (entry & Hfind & ->).
  apply List.find_some in Hfind as [Hin _].
  simpl in Hin. by repeat destruct Hin as [<-|Hin].
Qed.

Lemma visitPair_store labelCell valueCell result :
  visitPair labelCell valueCell result
  = foldl store result (from_option (λ e, [e]) [] (matched (labelCell, valueCell))).
Proof.
  unfold visitPair, matched; simpl.
  destruct (isLabel labelCell); [|done].
  destruct (fieldNameOf _) as [fieldName|] eqn:Hfield; [|done].
  by rewrite (fieldNameOf_nonempty _ _ Hfield).
Qed.

(** Induction over a row two cells at a time. *)
Lemma row_pair_ind (P : Row → Prop) :
  P [] → (∀ c, P [c]) → (∀ c1 c2 rest, P rest → P (c1 :: c2 :: rest)) →
  ∀ cells, P cells.
Proof.
  intros Hnil Hone Hstep cells.
  assert (P cells ∧ ∀ c, P (c :: cells)) as [? _]; [|done].
  induction cells as [|c cells [IH1 IH2]]; split; auto.
Qed.

Lemma visitCells_fold cells :
  ∀ result, visitCells cells result = foldl store result (matchesOfRow cells).
Proof.
  induction cells as [| c | labelCell valueCell rest IH] using row_pair_ind;
    intros result; try done.
  simpl. rewrite IH, visitPair_store. unfold matchesOfRow. simpl.
  by destruct (matched (labelCell, valueCell)).
Qed.

Lemma extract_fold_from rows :
  ∀ result,
    foldl (λ result row, visitCells row result) result rows
    = foldl store result (matchesOf rows).
Proof.
  unfold matchesOf.
  induction rows as [|row rows IH]; intros result; [done|].
  simpl. rewrite IH, visitCells_fold. by rewrite foldl_app.
Qed.

Lemma extract_fold rows :
  extractDetailData rows = foldl store ∅ (matchesOf rows).
Proof. apply extract_fold_from. Qed.

Lemma foldl_store_lookup entries :
  ∀ (result : DetailRecord) key,
    foldl store result entries !! key
    = match lastFor key entries with
      | Some valueCell => Some (valueOf valueCell)
      | None => result !! key
      end.
Proof.
  induction entries as [|[key' x] rest IH]; intros result key; [done|].
  simpl. rewrite IH. destruct (lastFor key rest); [done|].
  unfold store; simpl.
  destruct (String.eqb_spec key key') as [->|Hne].
  - by rewrite lookup_insert_eq.
  - by rewrite lookup_insert_ne.
Qed.

(** The record holds, under each key, the value of the last pair matched
    to that key. *)
Lemma extract_lookup rows key :
  extractDetailData rows !! key = valueOf <$> lastFor key (matchesOf rows).
Proof.
  rewrite extract_fold, foldl_store_lookup, lookup_empty.
  by destruct (lastFor _ _).
Qed.

Lemma lastFor_elem {X} key (entries : list (string * X)) x :
  lastFor key entries = Some x → (key, x) ∈ entries.
Proof.
  induction entries as [|[key' y] rest IH]; [done|]. simpl.
  destruct (lastFor key rest) as [z|].
  - intros [= ->]. right. by apply IH.
  - destruct (String.eqb_spec key key') as [->|]; [|done].
    intros [= ->]. left.
Qed.

Lemma lastFor_is_Some {X} key (entries : list (string * X)) :
  is_Some (lastFor key entries) ↔ ∃ x, (key, x) ∈ entries.
Proof.
  split.
  - intros [x Hx]. exists x. by apply lastFor_elem.
  - intros [x Hx]. induction entries as [|[key' y] rest IH].
    + by apply elem_of_nil in Hx.
    + simpl. apply elem_of_cons in Hx as [[= <- <-]|Hx].
      * destruct (lastFor key rest); [by eexists|].
        rewrite String.eqb_refl. by eexists.
      * destruct (IH Hx) as [z ->]. by eexists.
Qed.

Lemma find_Some_first {A} (pred : A → bool) (arr : list A) x :
  JS.find pred arr = Some x ↔
  ∃ i, arr !! i = Some x ∧ pred x = true
       ∧ ∀ j y, (j < i)%nat → arr !! j = Some y → pred y = false.
Proof.
  unfold JS.find. induction arr as [|a arr IH]; simpl.
  - split; [done|]. by intros (i & Hi & _).
  - destruct (pred a) eqn:Ha.
    + split.
      * intros [= ->]. exists 0%nat. repeat split; [done|]. intros; lia.
      * intros ([|i] & Hi & Hx & Hfirst).
        -- by injection Hi as ->.
        -- specialize (Hfirst 0%nat a ltac:(lia) eq_refl). congruence.
    + rewrite IH. split.
      * intros (i & Hi & Hx & Hfirst). exists (S i). repeat split; [done..|].
        intros [|j] y Hj Hy; [by injection Hy as <-|].
        apply (Hfirst j); [lia|done].
      * intros ([|i] & Hi & Hx & Hfirst).
        -- injection Hi as ->. congruence.
        -- exists i. repeat split; [done..|]. intros j y Hj Hy.
           apply (Hfirst (S j)); [lia|done].
Qed.

Lemma fieldNameOf_firstMapping labelText key :
  fieldNameOf labelText = Some key ↔ firstMapping labelText key.
Proof.
  unfold fieldNameOf, firstMapping. rewrite fmap_Some. split.
  - intros ([label key'] & Hfind & ->).
    apply find_Some_first in Hfind as (i & Hi & Hp & Hfirst).
    exists i, label. repeat split; [done..|].
    intros j entry Hj He. by apply (Hfirst j).
  - intros (i & label & Hi & Hp & Hfirst). exists (label, key).
    split; [|done]. apply find_Some_first. exists i.
    repeat split; [done..|]. intros j y Hj Hy. by apply (Hfirst j).
Qed.

Lemma elem_of_pairsOf cells labelCell valueCell :
  (labelCell, valueCell) ∈ pairsOf cells ↔
  ∃ j, cells !! (2 * j)%nat = Some labelCell
       ∧ cells !! (2 * j + 1)%nat = Some valueCell.
Proof.
  induction cells as [| c | c1 c2 rest IH] using row_pair_ind;
    cbn [pairsOf].
  - split; [by intros ?%elem_of_nil|]. by intros (j & ? & _).
  - split; [by intros ?%elem_of_nil|].
    intros (j & _ & Hj).
    replace (2 * j + 1)%nat with (S (2 * j)) in Hj by lia.
    by rewrite lookup_cons_ne_0, lookup_nil in Hj by lia.
  - rewrite elem_of_cons, IH. split.
    + intros [[= -> ->]|(j & H1 & H2)].
      * by exists 0%nat.
      * exists (S j).
        replace (2 * S j)%nat with (S (S (2 * j))) by lia.
        replace (S (S (2 * j)) + 1)%nat with (S (S (2 * j + 1))) by lia.
        done.
    + intros ([|j] & H1 & H2).
      * left. cbn in H1, H2. congruence.
      * right. exists j.
        replace (2 * S j)%nat with (S (S (2 * j))) in H1, H2 by lia.
        replace (S (S (2 * j)) + 1)%nat with (S (S (2 * j + 1))) in H2 by lia.
        done.
Qed.

Lemma elem_of_matchesOf rows key valueCell :
  (key, valueCell) ∈ matchesOf rows ↔ pairFor rows key valueCell.
Proof.
  unfold matchesOf, pairFor, matchesOfRow.
  rewrite list_elem_of_bind. split.
  - intros (row & Hin & Hrow).
    apply list_elem_of_omap in Hin as ([labelCell v] & Hpair & Hm).
    unfold matched in Hm; simpl in Hm.
    destruct (isLabel labelCell) eqn:Hlabel; [|done].
    apply fmap_Some in Hm as (fieldName & Hf & [= -> ->]).
    apply elem_of_pairsOf in Hpair as (j & H1 & H2).
    exists row, j, labelCell. repeat split; [done..|].
    by apply fieldNameOf_firstMapping.
  - intros (row & j & labelCell & Hrow & H1 & H2 & Hlabel & Hfirst).
    exists row. split; [|done].
    apply list_elem_of_omap. exists (labelCell, valueCell). split.
    + apply elem_of_pairsOf. by exists j.
    + unfold matched; simpl. rewrite Hlabel.
      apply fieldNameOf_firstMapping in Hfirst. by rewrite Hfirst.
Qed.

End DetailFacts.

(** C3, as stated, fails: a label-styled cell whose text contains the
    label of [status] does not put [status] in the record when the cell
    has no value cell after it, and a label that contains the labels of
    two mapping entries stores the first entry's key only. *)
Lemma extractDetailData_label_seen_key_absent :
  (DetailSpec.labelSeen Samples.lone_label_rows "status"
   ∧ Detail.extractDetailData Samples.lone_label_rows !! "status" = None)
  ∧ (DetailSpec.labelSeen Samples.double_label_rows "revelationDate"
     ∧ Detail.extractDetailData Samples.double_label_rows !! "revelationDate" = None
     ∧ Detail.extractDetailData Samples.double_label_rows !! "applicationDate"
       = Some (Some "2024-01-15")).
Proof.
  split; [split|split; [|split]]; try (vm_compute; reflexivity).
  - eexists _, _, "Status". split; [apply list_elem_of_here|].
    split; [apply list_elem_of_here|].
    split; [done|]. split; [|done].
    apply list_elem_of_In. simpl. tauto.
  - eexists _, _, "Revelation date". split; [apply list_elem_of_here|].
    split; [apply list_elem_of_here|].
    split; [done|]. split; [|done].
    apply list_elem_of_In. simpl. tauto.
Qed.

(** C3, amended: the record contains a key exactly when some row holds,
    at an even cell position and followed by a value cell, a label-styled
    cell whose normalized text contains that key's mapping label and no
    earlier mapping label; the key then maps to the value of the last
    such pair in document order, which is null when the chosen text is
    empty; a key that no pair selects is absent, and a row none of whose
    pairs select a key can be dropped without changing the record. *)
Theorem extractDetailData_keys (rows : list Detail.Row) (key : string) :
  (key ∈ dom (Detail.extractDetailData rows)
     ↔ ∃ valueCell, DetailSpec.pairFor rows key valueCell)
  ∧ Detail.extractDetailData rows !! key
      = Detail.valueOf <$> DetailSpec.lastFor key (DetailSpec.matchesOf rows)
  ∧ (∀ valueCell,
       DetailSpec.lastFor key (DetailSpec.matchesOf rows) = Some valueCell →
       DetailSpec.pairFor rows key valueCell
       ∧ Detail.extractDetailData rows !! key
           = Some (if JS.isEmpty (Detail.chosenText valueCell) then None
                   else Some (Detail.chosenText valueCell)))
  ∧ ((∀ valueCell, ¬ DetailSpec.pairFor rows key valueCell) →
       Detail.extractDetailData rows !! key = None)
  ∧ (∀ before row after,
       (∀ key' valueCell, ¬ DetailSpec.pairFor [row] key' valueCell) →
       Detail.extractDetailData (before ++ row :: after)
       = Detail.extractDetailData (before ++ after)).
Proof.
  assert (Hdom : key ∈ dom (Detail.extractDetailData rows)
                 ↔ ∃ valueCell, DetailSpec.pairFor rows key valueCell).
  { rewrite elem_of_dom, DetailFacts.extract_lookup, fmap_is_Some,
      DetailFacts.lastFor_is_Some.
    by setoid_rewrite DetailFacts.elem_of_matchesOf. }
  split; [done|]. split; [apply DetailFacts.extract_lookup|].
  split; [|split].
  - intros valueCell Hlast. split.
    + by apply DetailFacts.elem_of_matchesOf, DetailFacts.lastFor_elem.
    + by rewrite DetailFacts.extract_lookup, Hlast.
  - intros Hnone. apply not_elem_of_dom. rewrite Hdom.
    intros [valueCell Hpair]. by apply (Hnone valueCell).
  - intros before row after Hnone.
    rewrite !DetailFacts.extract_fold. f_equal.
    unfold DetailSpec.matchesOf. rewrite !bind_app, bind_cons.
    destruct (DetailSpec.matchesOfRow row) as [|[key' valueCell] rest] eqn:Hrow;
      [done|].
    exfalso. apply (Hnone key' valueCell).
    apply DetailFacts.elem_of_matchesOf.
    unfold DetailSpec.matchesOf. rewrite bind_cons, Hrow. apply list_elem_of_here.
Qed.

(** C3, amended, on a table with an empty application date: the key is
    there and maps to null, while a key without a matching pair is not
    there. *)
Lemma extractDetailData_keys_witness :
  Detail.extractDetailData Samples.blank_date_rows !! "applicationDate"
  = Some None
  ∧ Detail.extractDetailData Samples.blank_date_rows !! "status" = None.
Proof.
  destruct (extractDetailData_keys Samples.blank_date_rows "applicationDate")
    as (_ & _ & Hlast & _).
  destruct (extractDetailData_keys Samples.blank_date_rows "status")
    as (_ & Hstatus & _).
  split.
  - exact (proj2 (Hlast (Detail.mkCell [] "   " None) eq_refl)).
  - exact Hstatus.
Defined.

(** C6: when the value cell of a stored field (the last pair matched to
    its key) has a highlighted sub-element whose trimmed text is not
    empty, the record holds that trimmed text; the normalized text of the
    whole cell (or null, when that is empty) is stored only when there is
    no highlight or its trimmed text is empty. *)
Theorem extractDetailData_prefers_highlight
    (rows : list Detail.Row) (key : string) (valueCell : Detail.Cell) :
  DetailSpec.lastFor key (DetailSpec.matchesOf rows) = Some valueCell →
  (∀ h, Detail.highlight valueCell = Some h → JS.trim h ≠ EmptyString →
        Detail.extractDetailData rows !! key = Some (Some (JS.trim h)))
  ∧ ((Detail.highlight valueCell = None
      ∨ ∃ h, Detail.highlight valueCell = Some h ∧ JS.trim h = EmptyString) →
     Detail.extractDetailData rows !! key
     = Some (let text := Detail.normalize (Detail.textContent valueCell) in
             if JS.isEmpty text then None else Some text)).
Proof.
  intros Hlast. rewrite DetailFacts.extract_lookup, Hlast. simpl.
  unfold Detail.valueOf, Detail.chosenText. split.
  - intros h -> Hh. simpl. by destruct (JS.trim h).
  - intros [->|(h & -> & Hh)]; simpl; [done|]. by rewrite Hh.
Qed.

(** C6 on a title cell that highlights part of its text. *)
Lemma extractDetailData_prefers_highlight_witness :
  Detail.extractDetailData Samples.highlighted_rows !! "nameTitle" = Some (Some "ACME").
Proof.
  apply (proj1 (extractDetailData_prefers_highlight Samples.highlighted_rows "nameTitle"
                  (Detail.mkCell [] "  ACME   corp " (Some " ACME ")) eq_refl)
               " ACME " eq_refl).
  vm_compute. discriminate.
Defined.

(** C7, as stated, fails: two rows with the same label and different
    values give different records in the two orders, although no label
    of the table matches more than one mapping key. *)
Lemma extractDetailData_row_order_matters :
  Samples.status_rows ≡ₚ Samples.status_rows_swapped
  ∧ (∀ row cell, row ∈ Samples.status_rows → cell ∈ row →
       DetailSpec.ambiguous (Detail.normalize (Detail.textContent cell)) = false)
  ∧ Detail.extractDetailData Samples.status_rows !! "status" = Some (Some "expired")
  ∧ Detail.extractDetailData Samples.status_rows_swapped !! "status"
    = Some (Some "registered")
  ∧ Detail.extractDetailData Samples.status_rows
    ≠ Detail.extractDetailData Samples.status_rows_swapped.
Proof.
  split; [apply perm_swap|]. split; [|split; [|split]].
  - intros row cell Hrow Hcell. unfold Samples.status_rows in Hrow.
    repeat (apply elem_of_cons in Hrow as [->|Hrow]);
      [..|by apply elem_of_nil in Hrow];
      repeat (apply elem_of_cons in Hcell as [->|Hcell]);
      try (by apply elem_of_nil in Hcell); by vm_compute.
  - by vm_compute.
  - by vm_compute.
  - intros Heq. apply (f_equal (λ m, m !! "status")) in Heq.
    vm_compute in Heq. discriminate.
Qed.

(** C7, amended: permuting the rows of the details table leaves the
    record unchanged whenever all pairs stored under one key carry the
    same value (in particular when no key is matched twice); where two
    pairs under one key differ, the later row in document order wins. *)
Theorem extractDetailData_permutation (rows rows' : list Detail.Row) :
  rows ≡ₚ rows' →
  DetailSpec.consistent rows →
  Detail.extractDetailData rows = Detail.extractDetailData rows'.
Proof.
  intros Hperm Hcons. apply map_eq. intros key.
  rewrite !DetailFacts.extract_lookup.
  assert (Hm : DetailSpec.matchesOf rows ≡ₚ DetailSpec.matchesOf rows')
    by (unfold DetailSpec.matchesOf; by rewrite Hperm).
  destruct (DetailSpec.lastFor key (DetailSpec.matchesOf rows)) as [v|] eqn:Hv;
    destruct (DetailSpec.lastFor key (DetailSpec.matchesOf rows')) as [v'|] eqn:Hv';
    simpl; [|exfalso..|done].
  - f_equal. apply (Hcons key).
    + by apply DetailFacts.lastFor_elem.
    + rewrite Hm. by apply DetailFacts.lastFor_elem.
  - apply DetailFacts.lastFor_elem in Hv. rewrite Hm in Hv.
    assert (is_Some (DetailSpec.lastFor key (DetailSpec.matchesOf rows'))) as [? ?]
      by (apply DetailFacts.lastFor_is_Some; eauto).
    congruence.
  - apply DetailFacts.lastFor_elem in Hv'. rewrite <- Hm in Hv'.
    assert (is_Some (DetailSpec.lastFor key (DetailSpec.matchesOf rows))) as [? ?]
      by (apply DetailFacts.lastFor_is_Some; eauto).
    congruence.
Qed.

(** C7, amended, on two rows with different labels. *)
Lemma extractDetailData_permutation_witness :
  Detail.extractDetailData Samples.distinct_rows
  = Detail.extractDetailData Samples.distinct_rows_swapped.
Proof.
  apply (extractDetailData_permutation Samples.distinct_rows Samples.distinct_rows_swapped).
  - apply perm_swap.
  - intros key v1 v2 H1 H2. vm_compute in H1, H2.
    repeat (apply elem_of_cons in H1 as [H1|H1]);
      try (by apply elem_of_nil in H1);
      repeat (apply elem_of_cons in H2 as [H2|H2]);
      try (by apply elem_of_nil in H2); congruence.
Defined.

(** ** The search form *)

Module FormFacts.
Import Browser Form FormSpec.

Lemma bind_Ok {A B} (m : M A) (k : A → M B) s a s' :
  m s = (Ok a, s') → (m ≫= k) s = k a s'.
Proof. intros H. unfold mbind, M_bind. by rewrite H. Qed.

Lemma bind_Throw {A B} (m : M A) (k : A → M B) s e s' :
  m s = (Throw e, s') → (m ≫= k) s = (Throw e, s').
Proof. intros H. unfold mbind, M_bind. by rewrite H. Qed.

Lemma blocked_needsToggle checkbox :
  blocked checkbox = true → needsToggle checkbox = false.
Proof.
  unfold blocked, needsToggle. destruct (id checkbox) as [name|]; [|done].
  destruct (box checkbox); [by rewrite andb_false_r|by rewrite andb_false_r].
Qed.

Lemma visitCheckbox_run done checkbox rest s :
  checkboxes (form (page s)) = done ++ checkbox :: rest →
  visitCheckbox (List.length done) s
  = (if blocked checkbox
     then Throw (TypeError "box.click is not a function") else Ok tt,
     if needsToggle checkbox
     then addCalls [ClickBox (List.length done); WaitForTimeout 100]
            (setBoxes (done ++ toggle checkbox :: rest) s)
     else s).
Proof.
  intros Hboxes. unfold visitCheckbox.
  erewrite bind_Ok; [|reflexivity]. cbv beta.
  rewrite Hboxes, list_lookup_middle by done.
  unfold needsToggle, blocked.
  destruct (id checkbox) as [name|]; [|done].
  destruct (JS.isEmpty name); [done|]. simpl.
  destruct (negb _); [|done].
  destruct (box checkbox); [|done].
  destruct s as [[st [boxes fs fc sel] ls] filled subs q log].
  simpl in Hboxes. subst boxes.
  cbv [mbind M_bind clickBox waitForTimeout record modify addCalls setBoxes
       setForm setPage addCall page form site listing formFilled submissions
       queue calls checkboxes fields focus selection].
  rewrite <- app_assoc. simpl. do 4 f_equal.
  rewrite alter_app_r_alt by done. by rewrite Nat.sub_diag.
Qed.

Lemma forOf_visitCheckbox rest :
  ∀ done s,
    checkboxes (form (page s)) = done ++ rest →
    forOf (seq (List.length done) (List.length rest)) visitCheckbox s
    = (loopOutcome rest,
       addCalls (togglesFrom (List.length done) rest)
         (setBoxes (done ++ settleAll rest) s)).
Proof.
  induction rest as [|checkbox rest IH]; intros done s Hboxes.
  - destruct s as [[st [boxes fs fc sel] ls] filled subs q log].
    simpl in *. subst boxes. unfold addCalls, setBoxes, setForm, setPage.
    simpl. by rewrite !app_nil_r.
  - cbn [List.length seq forOf].
    pose proof (visitCheckbox_run done checkbox rest s Hboxes) as Hvisit.
    unfold loopOutcome. cbn [existsb settleAll togglesFrom].
    destruct (blocked checkbox) eqn:Hblocked.
    + rewrite (blocked_needsToggle _ Hblocked) in Hvisit.
      erewrite bind_Throw; [|exact Hvisit]. cbn [orb]. f_equal.
      destruct s as [[st [boxes fs fc sel] ls] filled subs q log].
      simpl in *. subst boxes. unfold addCalls, setBoxes, setForm, setPage.
      simpl. by rewrite app_nil_r.
    + erewrite bind_Ok; [|exact Hvisit]. cbn [orb].
      set (s1 := if needsToggle checkbox then _ else s).
      assert (Hs1 : checkboxes (form (page s1))
                    = (done ++ [settle checkbox]) ++ rest).
      { rewrite <- app_assoc. subst s1. unfold settle.
        by destruct (needsToggle checkbox). }
      specialize (IH (done ++ [settle checkbox]) s1 Hs1).
      rewrite length_app in IH. simpl in IH.
      rewrite Nat.add_1_r in IH. rewrite IH. unfold loopOutcome.
      f_equal. subst s1. rewrite <- app_assoc.
      destruct s as [[st [boxes fs fc sel] ls] filled subs q log].
      unfold settle.
      destruct (needsToggle checkbox);
        unfold addCalls, setBoxes, setForm, setPage; simpl;
        by rewrite <- ?app_assoc.
Qed.

(** One application of [setCheckboxes]: it ends as the loop does on the
    checkboxes of the form, having settled the checkboxes it passed and
    clicked the boxes of those that needed it. *)
Lemma setCheckboxes_run s :
  setCheckboxes s
  = (loopOutcome (checkboxes (form (page s))), afterSetCheckboxes s).
Proof.
  unfold setCheckboxes. erewrite bind_Ok; [|reflexivity].
  by apply (forOf_visitCheckbox _ []).
Qed.

Lemma passable_existsb boxes :
  passable boxes ↔ existsb blocked boxes = false.
Proof.
  unfold passable. induction boxes as [|checkbox boxes IH]; simpl.
  - split; [done|]. intros _ checkbox Hin. by apply elem_of_nil in Hin.
  - rewrite orb_false_iff, <- IH. split.
    + intros Hall. split; [apply Hall, list_elem_of_here|].
      intros c Hc. by apply Hall, list_elem_of_further.
    + intros [Hhead Hall] c Hc. apply elem_of_cons in Hc as [-> | Hc]; auto.
Qed.

Lemma loopOutcome_passable boxes :
  passable boxes → loopOutcome boxes = Ok tt.
Proof.
  intros Hpass. unfold loopOutcome.
  by rewrite (proj1 (passable_existsb boxes) Hpass).
Qed.

Lemma settleAll_passable boxes :
  passable boxes → settleAll boxes = settle <$> boxes.
Proof.
  induction boxes as [|checkbox boxes IH]; intros Hpass; [done|].
  cbn [settleAll fmap list_fmap].
  rewrite (Hpass checkbox) by apply list_elem_of_here.
  f_equal. apply IH. intros c Hc. by apply Hpass, list_elem_of_further.
Qed.

Lemma needsToggle_settle checkbox : needsToggle (settle checkbox) = false.
Proof.
  unfold settle. destruct (needsToggle checkbox) eqn:Hneeds; [|done].
  unfold needsToggle in *. simpl.
  destruct (id checkbox) as [name|]; [|done].
  destruct (JS.isEmpty name); [done|].
  by destruct (checked checkbox), (shouldBeChecked name), (box checkbox).
Qed.

Lemma blocked_settle checkbox : blocked (settle checkbox) = blocked checkbox.
Proof.
  unfold settle. destruct (needsToggle checkbox) eqn:Hneeds; [|done].
  unfold needsToggle, blocked in *. simpl.
  destruct (id checkbox) as [name|]; [|done].
  destruct (JS.isEmpty name); [done|].
  by destruct (checked checkbox), (shouldBeChecked name), (box checkbox).
Qed.

Lemma settle_idemp checkbox : settle (settle checkbox) = settle checkbox.
Proof. unfold settle at 1. by rewrite needsToggle_settle. Qed.

Lemma settleAll_idemp boxes : settleAll (settleAll boxes) = settleAll boxes.
Proof.
  induction boxes as [|checkbox boxes IH]; [done|]. cbn [settleAll].
  destruct (blocked checkbox) eqn:Hblocked; cbn [settleAll].
  - by rewrite Hblocked.
  - by rewrite blocked_settle, Hblocked, settle_idemp, IH.
Qed.

Lemma togglesFrom_settled boxes :
  ∀ index, togglesFrom index (settleAll boxes) = [].
Proof.
  induction boxes as [|checkbox boxes IH]; intros index; [done|].
  cbn [settleAll]. destruct (blocked checkbox) eqn:Hblocked;
    cbn [togglesFrom].
  - by rewrite Hblocked.
  - by rewrite blocked_settle, Hblocked, needsToggle_settle, IH.
Qed.

Lemma loopOutcome_settled boxes :
  loopOutcome (settleAll boxes) = loopOutcome boxes.
Proof.
  assert (Hsame : existsb blocked (settleAll boxes) = existsb blocked boxes).
  { induction boxes as [|checkbox boxes IH]; [done|]. cbn [settleAll].
    destruct (blocked checkbox) eqn:Hblocked; cbn [existsb].
    - by rewrite Hblocked.
    - by rewrite blocked_settle, Hblocked, IH. }
  unfold loopOutcome. by rewrite Hsame.
Qed.

Lemma afterSetCheckboxes_boxes s :
  checkboxes (form (page (afterSetCheckboxes s)))
  = settleAll (checkboxes (form (page s))).
Proof. by destruct s as [[st [boxes fs fc sel] ls] filled subs q log]. Qed.

Lemma afterSetCheckboxes_idemp s :
  afterSetCheckboxes (afterSetCheckboxes s) = afterSetCheckboxes s.
Proof.
  destruct s as [[st [boxes fs fc sel] ls] filled subs q log].
  unfold afterSetCheckboxes, addCalls, setBoxes, setForm, setPage. simpl.
  by rewrite togglesFrom_settled, app_nil_r, settleAll_idemp.
Qed.

Lemma settle_checked checkbox name :
  blocked checkbox = false →
  id checkbox = Some name → name ≠ EmptyString →
  checked (settle checkbox) = shouldBeChecked name.
Proof.
  intros Hfree Hid Hname. unfold settle, needsToggle.
  unfold blocked in Hfree. rewrite Hid in *.
  destruct name; [done|]. cbn [JS.isEmpty negb andb] in *.
  destruct (checked checkbox) eqn:Hc, (shouldBeChecked _) eqn:Hs,
           (box checkbox) eqn:Hb; simpl in *; by rewrite ?Hc.
Qed.

Lemma fillDateField_run selector value s :
  String.eqb selector Selectors.SubmitButton = false →
  fillDateField selector value s = (Ok tt, afterFill selector value s).
Proof.
  intros Hsel.
  destruct s as [[st [boxes fs fc sel] ls] filled subs q log].
  cbv [fillDateField mbind M_bind click press type waitForTimeout record
       modify gets afterFill addCalls setForm setPage addCall fieldText
       page form site listing formFilled submissions queue calls
       checkboxes fields focus selection].
  rewrite Hsel. simpl.
  rewrite lookup_insert_eq, insert_insert_eq, <- !app_assoc. done.
Qed.

Lemma waitForLoadState_run state timeout s :
  networkIdle (site (page s)) = true →
  waitForLoadState state timeout s
  = (Ok tt, addCall (WaitForLoadState state timeout) s).
Proof.
  intros Hidle. unfold waitForLoadState, record, modify, gets.
  cbv [mbind M_bind]. simpl. by rewrite Hidle.
Qed.

Lemma waitForSelector_run selector timeout s :
  matches selector s = true →
  waitForSelector selector timeout s
  = (Ok tt, addCall (WaitForSelector selector timeout) s).
Proof.
  intros Hfound. unfold waitForSelector, record, modify, gets.
  cbv [mbind M_bind].
  replace (matches selector (addCall _ s)) with (matches selector s) by done.
  by rewrite Hfound.
Qed.

Lemma withNavigation_click_run timeout waitUntil delay s :
  withNavigation timeout waitUntil (click Selectors.SubmitButton delay) s
  = (if navigationCompletes (site (page s)) then Ok tt
     else Throw (TimeoutError "waitForNavigation"),
     let s' := addCall (WaitForNavigation timeout waitUntil) s in
     addSubmission (form (page s'))
       (addCall (Click Selectors.SubmitButton delay) s')).
Proof.
  destruct s as [[st f ls] filled subs q log].
  cbv [withNavigation click mbind M_bind record modify gets awaitCondition].
  cbn. by destruct (navigationCompletes st).
Qed.

Lemma waitForFunction_run timeout s :
  waitForFunction timeout s
  = (if searchTable (site (page s))
        || bool_decide (is_Some (infoMessage (site (page s))))
     then Ok tt else Throw (TimeoutError "waitForFunction"),
     addCall (WaitForFunction timeout) s).
Proof.
  destruct s as [[st f ls] filled subs q log].
  cbv [waitForFunction mbind M_bind record modify gets awaitCondition].
  cbn. by destruct (searchTable st || _).
Qed.

(** The site, the result list, the guard and the queue are the same when
    the submit control has been clicked as at the start. *)
Lemma submitted_frame startDate endDate s :
  site (page (submitted startDate endDate s)) = site (page s)
  ∧ listing (page (submitted startDate endDate s)) = listing (page s)
  ∧ formFilled (submitted startDate endDate s) = formFilled s
  ∧ queue (submitted startDate endDate s) = queue s.
Proof. by destruct s as [[st [boxes fs fc sel] ls] filled subs q log]. Qed.

(** [performSearch] on a page whose network goes idle, whose form
    container shows and whose checkboxes let the loop through: it
    reaches the submit control, and settles by the navigation, the wait
    for a table or a message, and the message. *)
Lemma performSearch_run startDate endDate s :
  networkIdle (site (page s)) = true →
  formContainer (site (page s)) = true →
  passable (checkboxes (form (page s))) →
  performSearch startDate endDate s
  = let s1 := submitted startDate endDate s in
    if navigationCompletes (site (page s)) then
      let s2 := addCall (WaitForFunction None) s1 in
      if searchTable (site (page s))
         || bool_decide (is_Some (infoMessage (site (page s))))
      then classify (errorTextOf s) s2
      else (Throw (TimeoutError "waitForFunction"), s2)
    else (Throw (TimeoutError "waitForNavigation"), s1).
Proof.
  intros Hidle Hform Hpass. unfold performSearch.
  erewrite bind_Ok; [|by apply waitForLoadState_run].
  erewrite bind_Ok; [|by apply waitForSelector_run].
  erewrite bind_Ok;
    [|rewrite setCheckboxes_run, loopOutcome_passable by exact Hpass;
      reflexivity].
  erewrite bind_Ok; [|by apply fillDateField_run].
  erewrite bind_Ok; [|by apply fillDateField_run].
  destruct (submitted_frame startDate endDate s) as (Hsite & _).
  unfold submitted, atSubmit in *.
  set (s0 := afterFill Selectors.DateTo startDate _) in *.
  assert (Hsite0 : site (page s0) = site (page s)) by exact Hsite.
  cbv zeta. destruct (navigationCompletes (site (page s))) eqn:Hnav.
  - erewrite bind_Ok;
      [|by rewrite withNavigation_click_run, Hsite0, Hnav].
    cbv zeta.
    set (s1 := addSubmission _ _) in *.
    assert (Hsite1 : site (page s1) = site (page s)) by exact Hsite.
    destruct (searchTable (site (page s)) || _) eqn:Hshown.
    + erewrite bind_Ok;
        [|by rewrite waitForFunction_run, Hsite1, Hshown].
      erewrite bind_Ok; [|reflexivity].
      unfold errorTextOf. by rewrite <- Hsite1.
    + erewrite bind_Throw; [done|].
      by rewrite waitForFunction_run, Hsite1, Hshown.
  - erewrite bind_Throw; [done|].
    by rewrite withNavigation_click_run, Hsite0, Hnav.
Qed.

(** [performSearch] on a page that brings up the form but has a
    checkbox that stops the loop: it ends in the loop's error, before
    anything is typed or submitted. *)
Lemma performSearch_blocked startDate endDate s :
  networkIdle (site (page s)) = true →
  formContainer (site (page s)) = true →
  existsb blocked (checkboxes (form (page s))) = true →
  performSearch startDate endDate s
  = (Throw (TypeError "box.click is not a function"),
     afterSetCheckboxes
       (addCall (WaitForSelector Selectors.FormContainer (Some 20000%Z))
          (addCall (WaitForLoadState "networkidle" None) s))).
Proof.
  intros Hidle Hform Hblocked. unfold performSearch.
  erewrite bind_Ok; [|by apply waitForLoadState_run].
  erewrite bind_Ok; [|by apply waitForSelector_run].
  erewrite bind_Throw; [reflexivity|].
  rewrite setCheckboxes_run. unfold loopOutcome.
  replace (existsb blocked (checkboxes (form (page (addCall _ (addCall _ s))))))
    with true by (symmetry; exact Hblocked).
  reflexivity.
Qed.

End FormFacts.

Lemma classify_state errorText s : snd (Form.classify errorText s) = s.
Proof.
  unfold Form.classify.
  by destruct (Form.mentions _ _); [|destruct (Form.mentions _ _)].
Qed.

(** C1: after the submission, on every page that shows a message with
    text [text], [performSearch] throws the non-retryable error naming
    the empty result when the lower-cased, trimmed text contains
    [no results found]; otherwise the non-retryable error naming the
    overflow when it contains [too many results found]; otherwise it
    returns.  The three cases cover every text and exclude one another;
    a text with both phrases falls in the first; the two messages
    differ.  The form is submitted when the network goes idle, the form
    container shows, no checkbox stops the loop of [setCheckboxes] and
    the submission navigates. *)
Theorem performSearch_classifies
    (startDate endDate text : string) (s : Browser.Crawl) :
  Browser.networkIdle (Browser.site (Browser.page s)) = true →
  Browser.formContainer (Browser.site (Browser.page s)) = true →
  FormSpec.passable (Browser.checkboxes (Browser.form (Browser.page s))) →
  Browser.navigationCompletes (Browser.site (Browser.page s)) = true →
  Browser.infoMessage (Browser.site (Browser.page s)) = Some text →
  let errorText := JS.trim (JS.toLowerCase text) in
  let outcome := fst (Form.performSearch startDate endDate s) in
  (JS.includes "no results found" errorText = true →
     outcome = Browser.Throw
       (Browser.NonRetryableError "No results found for the given criteria"))
  ∧ (JS.includes "no results found" errorText = false →
     JS.includes "too many results found" errorText = true →
     outcome = Browser.Throw
       (Browser.NonRetryableError
          "Too many results found. Please narrow your search criteria"))
  ∧ (JS.includes "no results found" errorText = false →
     JS.includes "too many results found" errorText = false →
     outcome = Browser.Ok tt)
  ∧ "No results found for the given criteria"
    ≠ "Too many results found. Please narrow your search criteria".
Proof.
  intros Hidle Hform Hpass Hnav Hmsg errorText outcome. subst outcome.
  rewrite FormFacts.performSearch_run by done. cbv zeta.
  rewrite Hnav, Hmsg, orb_true_r.
  unfold Form.classify, FormSpec.errorTextOf, Form.mentions.
  rewrite Hmsg. simpl. fold errorText.
  repeat split.
  - by intros ->.
  - by intros -> ->.
  - by intros -> ->.
  - discriminate.
Qed.

(** C1 on a page whose message holds both phrases. *)
Lemma performSearch_classifies_witness :
  JS.includes "no results found"
    (JS.trim (JS.toLowerCase "  Too many results found; NO Results Found. "))
  = true
  ∧ JS.includes "too many results found"
      (JS.trim (JS.toLowerCase "  Too many results found; NO Results Found. "))
    = true
  ∧ fst (Form.performSearch "2024-01-01" "2024-01-31"
           (Listing.start Samples.both_phrases_page))
    = Browser.Throw
        (Browser.NonRetryableError "No results found for the given criteria").
Proof.
  split; [by vm_compute|]. split; [by vm_compute|].
  apply (performSearch_classifies "2024-01-01" "2024-01-31"
           "  Too many results found; NO Results Found. "
           (Listing.start Samples.both_phrases_page));
    try (by vm_compute).
  apply FormFacts.passable_existsb. by vm_compute.
Defined.

(** C2: on every page that brings up the form and whose checkboxes let
    the loop of [setCheckboxes] through, the form that [performSearch]
    hands to the registry has the caller's end date in the "from" field
    and the caller's start date in the "to" field, each typed into its
    field after the field was cleared. *)
Theorem performSearch_date_fields
    (startDate endDate : string) (s : Browser.Crawl) :
  Browser.networkIdle (Browser.site (Browser.page s)) = true →
  Browser.formContainer (Browser.site (Browser.page s)) = true →
  FormSpec.passable (Browser.checkboxes (Browser.form (Browser.page s))) →
  let s' := snd (Form.performSearch startDate endDate s) in
  (∃ f, Browser.submissions s' = Browser.submissions s ++ [f]
        ∧ Browser.fields f !! Selectors.DateFrom = Some endDate
        ∧ Browser.fields f !! Selectors.DateTo = Some startDate)
  ∧ Browser.TypeText Selectors.DateFrom endDate 100 ∈ Browser.calls s'
  ∧ Browser.TypeText Selectors.DateTo startDate 100 ∈ Browser.calls s'.
Proof.
  intros Hidle Hform Hpass s'.
  assert (Hsub : ∃ extra, s' = FormSpec.addCalls extra
                                 (FormSpec.submitted startDate endDate s)).
  { subst s'. rewrite FormFacts.performSearch_run by done. cbv zeta.
    destruct (Browser.navigationCompletes _).
    - exists [Browser.WaitForFunction None].
      destruct (_ || _); [by rewrite classify_state|done].
    - exists []. simpl.
      destruct (FormSpec.submitted _ _ _) as [pg filled subs q log].
      unfold FormSpec.addCalls. simpl. by rewrite app_nil_r. }
  destruct Hsub as [extra ->].
  destruct s as [[st [boxes fs fc sel] ls] filled subs q log].
  split; [|split].
  - eexists. split; [reflexivity|]. simpl. split.
    + by rewrite lookup_insert_ne, lookup_insert_eq.
    + by rewrite lookup_insert_eq.
  - simpl. set_solver.
  - simpl. set_solver.
Qed.

(** C2 for a search over January 2024 on a form with a stale date. *)
Lemma performSearch_date_fields_witness :
  ∃ f, Browser.submissions
         (snd (Form.performSearch "2024-01-01" "2024-01-31"
                 (Listing.start Samples.both_phrases_page)))
       = [f]
       ∧ Browser.fields f !! Selectors.DateFrom = Some "2024-01-31"
       ∧ Browser.fields f !! Selectors.DateTo = Some "2024-01-01".
Proof.
  refine (proj1 (performSearch_date_fields "2024-01-01" "2024-01-31"
                   (Listing.start Samples.both_phrases_page)
                   eq_refl eq_refl _)).
  apply FormFacts.passable_existsb. by vm_compute.
Defined.

(** C5: on a form whose target checkbox lies outside any widget with a
    box, one application of [setCheckboxes] does not leave the target
    checked: the guard [if (box)] passes on the handle, [box.click()]
    throws, and the checkbox stays unchecked; [performSearch] on that
    page ends in the same error with nothing submitted. *)
Lemma setCheckboxes_boxless_target_unchecked :
  Form.shouldBeChecked "pwp_criteria_0" = true
  ∧ fst (Form.setCheckboxes (Listing.start Samples.boxless_page))
    = Browser.Throw (Browser.TypeError "box.click is not a function")
  ∧ Browser.checked
      <$> Browser.checkboxes
            (Browser.form (Browser.page
               (snd (Form.setCheckboxes (Listing.start Samples.boxless_page)))))
    = [false]
  ∧ fst (Form.performSearch "2024-01-01" "2024-01-31"
           (Listing.start Samples.boxless_page))
    = Browser.Throw (Browser.TypeError "box.click is not a function")
  ∧ Browser.submissions
      (snd (Form.performSearch "2024-01-01" "2024-01-31"
              (Listing.start Samples.boxless_page)))
    = [].
Proof. by vm_compute. Qed.

(** ** The listing handler *)

Module ListingFacts.
Import Browser Listing ListingSpec.

(** One iteration of the pagination loop. *)
Lemma paginate_step fuel s :
  paginate (S fuel) s
  = if from_option nextEnabled false (head (listing (page s)))
    then paginate fuel (turned s)
    else (Ok tt, harvested s).
Proof.
  destruct s as [[st f ls] filled subs q log].
  cbn [paginate]. unfold turned, harvested.
  cbv [mbind M_bind enqueueLinks queryNext clickNext waitForTimeout record
       modify gets].
  cbn [page listing addCall addBatch site form formFilled submissions queue
       calls].
  destruct ls as [|p rest]; [done|]. cbn [head from_option].
  destruct (nextEnabled p); [|done].
  by destruct rest.
Qed.

Lemma turned_frame s :
  formFilled (turned s) = formFilled s
  ∧ submissions (turned s) = submissions s
  ∧ FormSpec.submitClicks (calls (turned s)) = FormSpec.submitClicks (calls s)
  ∧ queue (turned s)
    = queue s ++ [from_option batchOf [] (head (listing (page s)))]
  ∧ calls (turned s) = calls s ++ turnPage.
Proof.
  assert (Hcalls : calls (turned s) = calls s ++ turnPage).
  { destruct s as [[st f [|p [|next rest]]] filled subs q log];
      unfold turned, harvested; cbn; by rewrite <- !app_assoc. }
  split; [|split; [|split; [|split]]]; [| | | |done].
  - by destruct s as [[st f [|p [|next rest]]] filled subs q log].
  - by destruct s as [[st f [|p [|next rest]]] filled subs q log].
  - rewrite Hcalls. unfold FormSpec.submitClicks.
    rewrite List.filter_app. simpl. by rewrite app_nil_r.
  - by destruct s as [[st f [|p [|next rest]]] filled subs q log].
Qed.

Lemma harvested_frame s :
  formFilled (harvested s) = formFilled s
  ∧ submissions (harvested s) = submissions s
  ∧ FormSpec.submitClicks (calls (harvested s))
    = FormSpec.submitClicks (calls s).
Proof.
  destruct s as [[st f ls] filled subs q log].
  unfold harvested. cbn [formFilled submissions calls addBatch addCall].
  do 2 (split; [done|]).
  unfold FormSpec.submitClicks. rewrite List.filter_app. simpl.
  by rewrite app_nil_r.
Qed.

(** The pagination never touches the guard, the submitted forms or the
    submit control. *)
Lemma paginate_frame fuel :
  ∀ s,
    formFilled (snd (paginate fuel s)) = formFilled s
    ∧ submissions (snd (paginate fuel s)) = submissions s
    ∧ FormSpec.submitClicks (calls (snd (paginate fuel s)))
      = FormSpec.submitClicks (calls s).
Proof.
  induction fuel as [|fuel IH]; intros s; [done|].
  rewrite paginate_step.
  destruct (from_option nextEnabled false _).
  - destruct (IH (turned s)) as (-> & -> & ->).
    by destruct (turned_frame s) as (-> & -> & -> & _).
  - apply harvested_frame.
Qed.

Lemma turned_listing p next rest s :
  listing (page s) = p :: next :: rest →
  listing (page (turned s)) = next :: rest.
Proof.
  destruct s as [[st f ls] filled subs q log]. cbn. by intros ->.
Qed.

(** The walk over a result list whose pages all lead on, but the last. *)
Lemma paginate_pages front :
  ∀ lastPage s fuel,
    listing (page s) = front ++ [lastPage] →
    Forall (λ p, nextEnabled p = true) front →
    nextEnabled lastPage = false →
    (List.length front < fuel)%nat →
    fst (paginate fuel s) = Ok tt
    ∧ queue (snd (paginate fuel s))
      = queue s ++ (batchOf <$> front ++ [lastPage])
    ∧ calls (snd (paginate fuel s))
      = calls s ++ (front ≫= λ _, turnPage)
          ++ [EnqueueLinks Selectors.TableRowLink "detail"].
Proof.
  induction front as [|p front IH]; intros lastPage s fuel Hls Hnext Hlast Hfuel;
    (destruct fuel as [|fuel]; [simpl in Hfuel; lia|]);
    rewrite paginate_step, Hls; simpl.
  - rewrite Hlast. destruct s as [[st f ls] filled subs q log].
    simpl in Hls. by subst ls.
  - apply Forall_cons in Hnext as [-> Hnext].
    assert (Hturned : listing (page (turned s)) = front ++ [lastPage]).
    { destruct front; by eapply turned_listing. }
    destruct (IH lastPage (turned s) fuel Hturned Hnext Hlast) as (-> & -> & ->);
      [simpl in Hfuel; lia|].
    destruct (turned_frame s) as (_ & _ & _ & -> & ->).
    rewrite Hls. simpl. by rewrite <- !app_assoc.
Qed.

(** With fewer iterations than pages the loop is still running. *)
Lemma paginate_short front :
  ∀ lastPage s fuel,
    listing (page s) = front ++ [lastPage] →
    Forall (λ p, nextEnabled p = true) front →
    (fuel ≤ List.length front)%nat →
    fst (paginate fuel s) = Diverge.
Proof.
  induction front as [|p front IH]; intros lastPage s fuel Hls Hnext Hfuel;
    (destruct fuel as [|fuel]; [done|]); simpl in Hfuel; [lia|].
  rewrite paginate_step, Hls. simpl.
  apply Forall_cons in Hnext as [-> Hnext].
  apply (IH lastPage); [|done|lia].
  destruct front; by eapply turned_listing.
Qed.

Lemma iterations_app log log' :
  iterations (log ++ log') = (iterations log + iterations log')%nat.
Proof. unfold iterations. by rewrite List.filter_app, length_app. Qed.

Lemma iterations_turns {A} (front : list A) :
  iterations (front ≫= λ _, turnPage) = List.length front.
Proof.
  induction front as [|p front IH]; [done|].
  rewrite bind_cons, iterations_app, IH. done.
Qed.

End ListingFacts.

(** C4: on a result list of N pages of which all but the last show an
    enabled "next" control, the pagination loop returns after exactly N
    iterations (N iterations suffice, fewer do not), and it hands the
    scheduler one batch per page, in page order, each batch being the
    detail links of its page. *)
Theorem paginate_terminates
    (front : list Browser.ResultPage) (lastPage : Browser.ResultPage)
    (s : Browser.Crawl) :
  Browser.listing (Browser.page s) = front ++ [lastPage] →
  (∀ p, p ∈ front → Browser.nextEnabled p = true) →
  Browser.nextEnabled lastPage = false →
  let N := List.length (front ++ [lastPage]) in
  (∀ fuel, (N ≤ fuel)%nat →
     fst (Listing.paginate fuel s) = Browser.Ok tt
     ∧ ListingSpec.iterations (Browser.calls (snd (Listing.paginate fuel s)))
       = (ListingSpec.iterations (Browser.calls s) + N)%nat
     ∧ Browser.queue (snd (Listing.paginate fuel s))
       = Browser.queue s ++ (ListingSpec.batchOf <$> front ++ [lastPage]))
  ∧ (∀ fuel, (fuel < N)%nat →
       fst (Listing.paginate fuel s) = Browser.Diverge).
Proof.
  intros Hls Hnext Hlast N. subst N. rewrite length_app. simpl.
  apply Forall_forall in Hnext. split.
  - intros fuel Hfuel.
    destruct (ListingFacts.paginate_pages front lastPage s fuel)
      as (-> & -> & ->); [done..|lia|].
    split; [done|]. split; [|done].
    rewrite !ListingFacts.iterations_app, ListingFacts.iterations_turns.
    change (ListingSpec.iterations [_]) with 1%nat. lia.
  - intros fuel Hfuel.
    apply (ListingFacts.paginate_short front lastPage); [done..|lia].
Qed.

(** C4 on a result list of two pages. *)
Lemma paginate_terminates_witness :
  fst (Listing.paginate 2 (Listing.start Samples.results_page)) = Browser.Ok tt
  ∧ Browser.queue (snd (Listing.paginate 2 (Listing.start Samples.results_page)))
    = ListingSpec.batchOf <$> Samples.two_result_pages
  ∧ fst (Listing.paginate 1 (Listing.start Samples.results_page))
    = Browser.Diverge.
Proof.
  pose proof (paginate_terminates
                [Browser.mkResultPage ["/details/1"; "/details/2"; "/details/3"] true]
                (Browser.mkResultPage ["/details/4"] false)
                (Listing.start Samples.results_page) eq_refl) as H.
  destruct H as [Hruns Hshort].
  - intros p Hp. apply list_elem_of_singleton in Hp. by subst p.
  - reflexivity.
  - destruct (Hruns 2%nat) as (Hok & _ & Hqueue); [simpl; lia|].
    split; [exact Hok|]. split; [exact Hqueue|].
    apply Hshort. simpl. lia.
Defined.

Lemma dispatch_filled startDate endDate fuel task s :
  Browser.formFilled s = true →
  Browser.formFilled (Listing.dispatch startDate endDate fuel task s) = true
  ∧ Browser.submissions (Listing.dispatch startDate endDate fuel task s)
    = Browser.submissions s
  ∧ FormSpec.submitClicks
      (Browser.calls (Listing.dispatch startDate endDate fuel task s))
    = FormSpec.submitClicks (Browser.calls s).
Proof.
  intros Hfilled. unfold Listing.dispatch, Listing.defaultHandler.
  erewrite FormFacts.bind_Ok; [|reflexivity].
  replace (Browser.formFilled (Browser.setPage (snd task) s)) with true by done.
  rewrite andb_false_r.
  erewrite FormFacts.bind_Ok; [|reflexivity].
  destruct (ListingFacts.paginate_frame fuel (Browser.setPage (snd task) s))
    as (-> & -> & ->).
  by destruct s.
Qed.





(** ** Command-line arguments *)

(** C9: [validateArgs] returns the pair on a command line whose start
    date is [2024-1-5], a string that is not of the format YYYY-MM-DD
    the usage line and the error message name: the date library reads a
    month and a day of one digit, and [validateArgs] checks nothing
    beyond what the library accepts. *)
Theorem validateArgs_accepts_short_fields :
  Args.validateArgs Args.parseLenient Samples.short_month_argv
  = Args.Returned "2024-1-5" "2024-01-31"
  ∧ Args.parseStrict "2024-1-5" = None
  ∧ Args.validateArgs Args.parseStrict Samples.short_month_argv
    = Args.Exited 1 "Invalid date format. Use YYYY-MM-DD.".
Proof. by vm_compute. Qed.

(** The library takes the short date for the fifth of January: the two
    spellings have the same time value. *)
Example parseLenient_short_fields :
  Args.parseLenient "2024-1-5" = Args.parseLenient "2024-01-05"
  ∧ Args.parseLenient "2024-01-05" = Args.parseStrict "2024-01-05".
Proof. by vm_compute. Qed.

(** The library has no year zero: the date [0000-01-01] is refused. *)
Example validateArgs_year_zero :
  Args.validateArgs Args.parseLenient
    [ "node"; "crawler.js"; "0000-01-01"; "2024-01-31" ]
  = Args.Exited 1 "Invalid date format. Use YYYY-MM-DD.".
Proof. by vm_compute. Qed.

(** On the three other command lines the library's parser and the
    parser of the format agree. *)
Example validateArgs_samples :
  Args.validateArgs Args.parseLenient Samples.january_argv
  = Args.Returned "2024-01-01" "2024-01-31"
  ∧ Args.validateArgs Args.parseLenient Samples.reversed_argv
    = Args.Exited 1 "Start date must be before or equal to end date."
  ∧ Args.validateArgs Args.parseLenient Samples.malformed_argv
    = Args.Exited 1 "Invalid date format. Use YYYY-MM-DD.".
Proof. by vm_compute. Qed.

(** ** Waits and their timeouts *)

(** On a page that shows neither a result table nor a message after the
    submission, [performSearch] ends in the engine's timeout error of
    [waitForFunction], which the scheduler retries; of the waits it
    made, the first [waitForLoadState] and that [waitForFunction] were
    called without a timeout option, while the waits of the detail
    handler all pass one. *)
Example performSearch_waits_without_timeout :
  let r := Form.performSearch "2024-01-01" "2024-01-31"
             (Listing.start Samples.silent_page) in
  fst r = Browser.Throw (Browser.TimeoutError "waitForFunction")
  ∧ List.filter (λ c, negb (FormSpec.explicitlyBounded c))
                (Browser.calls (snd r))
    = [ Browser.WaitForLoadState "networkidle" None;
        Browser.WaitForFunction None ]
  ∧ List.filter FormSpec.suspends
                (fst (DetailTask.detailHandler Samples.acme_detail))
    = [ Browser.WaitForLoadState "networkidle" (Some 20000%Z);
        Browser.WaitForSelector Selectors.DetailPanel (Some 15000%Z);
        Browser.WaitForTimeout 1000 ]
  ∧ forallb FormSpec.explicitlyBounded
            (fst (DetailTask.detailHandler Samples.acme_detail)) = true.
Proof. by vm_compute. Qed.

(* ===================================================================== *)
(** * Further properties *)
(* ===================================================================== *)

(** ** Text normalization *)

Module TextFacts.
Import TextSpec.

Lemma trimStart_starts s : startsWithSpace (JS.trimStart s) = false.
Proof.
  induction s as [|c s IH]; [done|]. simpl.
  destruct (JS.isWhiteSpace c) eqn:Hc; [done|]. simpl. by rewrite Hc.
Qed.

Lemma trimEnd_ends s : endsWithSpace (JS.trimEnd s) = false.
Proof.
  induction s as [|c s IH]; [done|]. simpl.
  destruct (JS.isWhiteSpace c) eqn:Hc; simpl.
  - destruct (JS.trimEnd s) as [|c' r]; [done|]. done.
  - destruct (JS.trimEnd s) as [|c' r]; [simpl; by rewrite Hc|]. done.
Qed.

Lemma trimEnd_starts s :
  startsWithSpace s = false → startsWithSpace (JS.trimEnd s) = false.
Proof.
  destruct s as [|c s]; [done|]. simpl. intros Hc. by rewrite Hc.
Qed.

Lemma trim_starts s : startsWithSpace (JS.trim s) = false.
Proof. apply trimEnd_starts, trimStart_starts. Qed.

Lemma trim_ends s : endsWithSpace (JS.trim s) = false.
Proof. apply trimEnd_ends. Qed.

Lemma trimStart_fixed s : startsWithSpace s = false → JS.trimStart s = s.
Proof. destruct s as [|c s]; [done|]. simpl. by intros ->. Qed.

Lemma trimEnd_fixed s : endsWithSpace s = false → JS.trimEnd s = s.
Proof.
  induction s as [|c s IH]; [done|]. intros Hends.
  destruct s as [|c' s'].
  - simpl in *. by rewrite Hends.
  - rewrite <- IH at 2 by done.
    change (JS.trimEnd (String c (String c' s')))
      with (let r := JS.trimEnd (String c' s') in
            if JS.isWhiteSpace c && JS.isEmpty r then EmptyString
            else String c r).
    cbv zeta. rewrite IH by done. simpl. by rewrite andb_false_r.
Qed.

Lemma trim_fixed s :
  startsWithSpace s = false → endsWithSpace s = false → JS.trim s = s.
Proof.
  intros Hs He. unfold JS.trim. rewrite trimStart_fixed by done.
  by apply trimEnd_fixed.
Qed.

Lemma collapse_starts s :
  startsWithSpace s = false →
  startsWithSpace (JS.collapseWhiteSpace s) = false.
Proof.
  destruct s as [|c s]; [done|]. unfold JS.collapseWhiteSpace. simpl.
  intros Hc. by rewrite Hc.
Qed.

Lemma collapseFrom_ends s :
  ∀ inRun,
    endsWithSpace s = false →
    endsWithSpace (JS.collapseFrom inRun s) = false
    ∧ (JS.isEmpty s = false → JS.isEmpty (JS.collapseFrom inRun s) = false).
Proof.
  induction s as [|c s IH]; intros inRun Hends; [done|].
  destruct s as [|c' s'].
  - simpl in *. rewrite Hends. simpl. by rewrite Hends.
  - assert (Hends' : endsWithSpace (String c' s') = false) by done.
    assert (Hrest : ∀ b, endsWithSpace (JS.collapseFrom b (String c' s')) = false
                         ∧ JS.isEmpty (JS.collapseFrom b (String c' s')) = false).
    { intros b. destruct (IH b Hends') as [H1 H2]. split; [done|by apply H2]. }
    change (JS.collapseFrom inRun (String c (String c' s')))
      with (if JS.isWhiteSpace c
            then (if inRun then JS.collapseFrom true (String c' s')
                  else String " " (JS.collapseFrom true (String c' s')))
            else String c (JS.collapseFrom false (String c' s'))).
    destruct (JS.isWhiteSpace c), inRun;
      try (destruct (Hrest true) as [H1 H2]);
      try (destruct (Hrest false) as [H3 H4]);
      try done;
      try (destruct (JS.collapseFrom true (String c' s')); done);
      try (destruct (JS.collapseFrom false (String c' s')); done).
Qed.

Lemma collapse_ends s :
  endsWithSpace s = false → endsWithSpace (JS.collapseWhiteSpace s) = false.
Proof. intros H. by apply collapseFrom_ends. Qed.

Lemma collapseFrom_idemp s :
  ∀ inRun,
    JS.collapseFrom inRun (JS.collapseFrom inRun s) = JS.collapseFrom inRun s.
Proof.
  induction s as [|c s IH]; intros inRun; [done|]. simpl.
  destruct (JS.isWhiteSpace c) eqn:Hc.
  - destruct inRun; [apply IH|]. simpl. by rewrite IH.
  - destruct inRun; simpl; by rewrite Hc, IH.
Qed.

Lemma normalize_starts s : startsWithSpace (Detail.normalize s) = false.
Proof. apply collapse_starts, trim_starts. Qed.

Lemma normalize_ends s : endsWithSpace (Detail.normalize s) = false.
Proof. apply collapse_ends, trim_ends. Qed.

End TextFacts.

(** X1: normalizing a text a second time changes nothing: the trimmed,
    white-space-collapsed form is a fixed point of the normalization the
    extractor applies to labels and to cell texts. *)
Theorem normalize_idempotent (s : string) :
  Detail.normalize (Detail.normalize s) = Detail.normalize s.
Proof.
  unfold Detail.normalize at 1.
  rewrite TextFacts.trim_fixed
    by (apply TextFacts.normalize_starts || apply TextFacts.normalize_ends).
  unfold Detail.normalize, JS.collapseWhiteSpace.
  apply TextFacts.collapseFrom_idemp.
Qed.

(** X2: whatever a value cell holds, the value the extractor stores for
    it is null or a non-empty string without white space at either end;
    it is null exactly when the cell's text is nothing but white space
    and its highlight, if any, is too. *)
Theorem valueOf_clean (valueCell : Detail.Cell) :
  (∀ text, Detail.valueOf valueCell = Some text →
     JS.isEmpty text = false
     ∧ TextSpec.startsWithSpace text = false
     ∧ TextSpec.endsWithSpace text = false)
  ∧ (Detail.valueOf valueCell = None
     ↔ JS.trim (Detail.textContent valueCell) = EmptyString
       ∧ (∀ h, Detail.highlight valueCell = Some h → JS.trim h = EmptyString)).
Proof.
  unfold Detail.valueOf, Detail.chosenText. split.
  - intros text.
    destruct (Detail.highlight valueCell) as [h|]; simpl.
    + destruct (JS.isEmpty (JS.trim h)) eqn:Hh.
      * destruct (JS.isEmpty (Detail.normalize _)) eqn:Hn; [done|].
        intros [= <-]. split; [done|].
        split; [apply TextFacts.normalize_starts|apply TextFacts.normalize_ends].
      * rewrite Hh. intros [= <-]. split; [done|].
        split; [apply TextFacts.trim_starts|apply TextFacts.trim_ends].
    + destruct (JS.isEmpty (Detail.normalize _)) eqn:Hn; [done|].
      intros [= <-]. split; [done|].
      split; [apply TextFacts.normalize_starts|apply TextFacts.normalize_ends].
  - assert (Hnorm : ∀ s, JS.isEmpty (Detail.normalize s) = true
                         ↔ JS.trim s = EmptyString).
    { intros s. unfold Detail.normalize, JS.collapseWhiteSpace.
      pose proof (TextFacts.trim_starts s) as Hs.
      destruct (JS.trim s) as [|c t]; [done|]. simpl in *. by rewrite Hs. }
    destruct (Detail.highlight valueCell) as [h|]; simpl.
    + destruct (JS.isEmpty (JS.trim h)) eqn:Hh.
      * destruct (JS.isEmpty (Detail.normalize _)) eqn:Hn.
        -- apply Hnorm in Hn. split; [|done]. intros _. split; [done|].
           intros h' [= <-]. by destruct (JS.trim h).
        -- split; [done|]. intros [Ht _]. apply Hnorm in Ht. congruence.
      * rewrite Hh. split; [done|]. intros [_ Hall].
        rewrite (Hall h eq_refl) in Hh. done.
    + destruct (JS.isEmpty (Detail.normalize _)) eqn:Hn.
      * apply Hnorm in Hn. split; [|done]. intros _. by split.
      * split; [done|]. intros [Ht _]. apply Hnorm in Ht. congruence.
Qed.

(** X2 on a padded value cell. *)
Lemma valueOf_clean_witness :
  Detail.valueOf MoreSamples.padded_cell = Some "ACME corp"
  ∧ TextSpec.startsWithSpace "ACME corp" = false
  ∧ TextSpec.endsWithSpace "ACME corp" = false.
Proof.
  split; [reflexivity|].
  exact (proj2 (proj1 (valueOf_clean MoreSamples.padded_cell)
                  "ACME corp" eq_refl)).
Defined.

(** ** Detail extraction, further *)

Module DetailMore.
Import Detail DetailSpec.

Lemma lastFor_app {X} key (l1 l2 : list (string * X)) :
  lastFor key (l1 ++ l2)
  = match lastFor key l2 with
    | Some y => Some y
    | None => lastFor key l1
    end.
Proof.
  induction l1 as [|[key' x] l1 IH]; simpl.
  - by destruct (lastFor key l2).
  - rewrite IH. by destruct (lastFor key l2).
Qed.

Lemma firstMapping_key labelText key :
  firstMapping labelText key → key ∈ (snd <$> FIELD_MAPPINGS).
Proof.
  intros (i & label & Hi & _).
  apply list_elem_of_fmap. exists (label, key). split; [done|].
  by eapply list_elem_of_lookup_2.
Qed.

End DetailMore.

(** X3: a record never holds a key outside the mapping table, so it has
    at most as many keys as the table has entries, whatever the details
    table holds. *)
Theorem extractDetailData_schema (rows : list Detail.Row) :
  (∀ key, key ∈ dom (Detail.extractDetailData rows) →
          key ∈ (snd <$> FIELD_MAPPINGS))
  ∧ (size (Detail.extractDetailData rows) ≤ List.length FIELD_MAPPINGS)%nat.
Proof.
  assert (Hkeys : ∀ key, key ∈ dom (Detail.extractDetailData rows) →
                         key ∈ (snd <$> FIELD_MAPPINGS)).
  { intros key Hin. apply elem_of_dom in Hin.
    rewrite DetailFacts.extract_lookup, fmap_is_Some in Hin.
    apply DetailFacts.lastFor_is_Some in Hin as [valueCell Hin].
    apply DetailFacts.elem_of_matchesOf in Hin
      as (row & j & labelCell & _ & _ & _ & _ & Hfirst).
    by eapply DetailMore.firstMapping_key. }
  split; [done|].
  rewrite <- size_dom.
  transitivity (size (list_to_set (C := gset string) (snd <$> FIELD_MAPPINGS))).
  - apply subseteq_size. intros key Hin. apply elem_of_list_to_set. by apply Hkeys.
  - rewrite size_list_to_set; [by rewrite length_fmap|].
    apply (bool_decide_unpack _). by vm_compute.
Qed.

(** X4: extraction composes over the rows of the table: the record of a
    table is the record of its later rows completed, for the keys they
    do not hold, by the record of its earlier rows. *)
Theorem extractDetailData_app (rows1 rows2 : list Detail.Row) :
  Detail.extractDetailData (rows1 ++ rows2)
  = Detail.extractDetailData rows2 ∪ Detail.extractDetailData rows1.
Proof.
  apply map_eq. intros key.
  rewrite lookup_union, !DetailFacts.extract_lookup.
  unfold DetailSpec.matchesOf. rewrite bind_app, DetailMore.lastFor_app.
  by destruct (DetailSpec.lastFor key (rows2 ≫= _)),
              (DetailSpec.lastFor key (rows1 ≫= _)).
Qed.

(** X5: a details table in which no cell carries the label styling gives
    the empty record (in particular the empty table does). *)
Theorem extractDetailData_unstyled (rows : list Detail.Row) :
  (∀ row cell, row ∈ rows → cell ∈ row → Detail.isLabel cell = false) →
  Detail.extractDetailData rows = ∅.
Proof.
  intros Hplain. apply map_eq. intros key.
  rewrite lookup_empty, DetailFacts.extract_lookup.
  destruct (DetailSpec.lastFor key (DetailSpec.matchesOf rows))
    as [valueCell|] eqn:Hlast; [exfalso|done].
  apply DetailFacts.lastFor_elem, DetailFacts.elem_of_matchesOf in Hlast
    as (row & j & labelCell & Hrow & Hlabel & _ & Hstyled & _).
  apply list_elem_of_lookup_2 in Hlabel.
  by rewrite (Hplain row labelCell Hrow Hlabel) in Hstyled.
Qed.

(** X5 on a table whose cells carry another class. *)
Lemma extractDetailData_unstyled_witness :
  Detail.extractDetailData MoreSamples.unstyled_rows = ∅.
Proof.
  apply (extractDetailData_unstyled MoreSamples.unstyled_rows).
  intros row cell Hrow Hcell. unfold MoreSamples.unstyled_rows in Hrow.
  repeat (apply elem_of_cons in Hrow as [->|Hrow]);
    [|by apply elem_of_nil in Hrow].
  repeat (apply elem_of_cons in Hcell as [->|Hcell]);
    try (by apply elem_of_nil in Hcell); by vm_compute.
Defined.

(** X6: the detail handler pushes a record exactly when the network
    went idle, the detail panel showed and some pair of the details
    table selects a mapping key; the record it pushes is the extracted
    one and is never empty. *)
Theorem detailHandler_pushes (p : DetailTask.DetailPage) :
  (is_Some (snd (DetailTask.detailHandler p))
   ↔ DetailTask.idle p = true ∧ DetailTask.panel p = true
     ∧ ∃ key valueCell, DetailSpec.pairFor (DetailTask.rows p) key valueCell)
  ∧ (∀ data, snd (DetailTask.detailHandler p) = Some data →
       data = Detail.extractDetailData (DetailTask.rows p) ∧ data ≠ ∅).
Proof.
  assert (Hempty : Detail.extractDetailData (DetailTask.rows p) = ∅
                   ↔ ¬ ∃ key valueCell,
                         DetailSpec.pairFor (DetailTask.rows p) key valueCell).
  { split.
    - intros Hnone (key & valueCell & Hpair).
      apply DetailFacts.elem_of_matchesOf in Hpair.
      assert (is_Some (DetailSpec.lastFor key
                         (DetailSpec.matchesOf (DetailTask.rows p)))) as [v Hv]
        by (apply DetailFacts.lastFor_is_Some; eauto).
      pose proof (DetailFacts.extract_lookup (DetailTask.rows p) key) as Hl.
      by rewrite Hnone, Hv, lookup_empty in Hl.
    - intros Hnone. apply map_eq. intros key.
      rewrite lookup_empty, DetailFacts.extract_lookup.
      destruct (DetailSpec.lastFor key _) as [v|] eqn:Hv; [exfalso|done].
      apply Hnone. exists key, v.
      by apply DetailFacts.elem_of_matchesOf, DetailFacts.lastFor_elem. }
  unfold DetailTask.detailHandler.
  destruct (DetailTask.idle p), (DetailTask.panel p); simpl;
    try (split; [split; [by intros [? ?]|by intros (? & ? & _)]|done]).
  case_bool_decide as Hdata; simpl.
  - split; [|done]. split; [by intros [? ?]|].
    intros (_ & _ & Hpair). by apply Hempty in Hdata.
  - split.
    + split; [|by eexists]. intros _. do 2 (split; [done|]).
      apply map_choose in Hdata as (key & value & Hkey).
      rewrite DetailFacts.extract_lookup in Hkey.
      apply fmap_Some in Hkey as (valueCell & Hlast & _).
      exists key, valueCell.
      by apply DetailFacts.elem_of_matchesOf, DetailFacts.lastFor_elem.
    + by intros data [= <-].
Qed.

(** ** The search form, further *)

Module FormMore.
Import Browser Form FormSpec.

Lemma waitForLoadState_any state timeout s :
  waitForLoadState state timeout s
  = (if networkIdle (site (page s)) then Ok tt
     else Throw (TimeoutError "waitForLoadState"),
     addCall (WaitForLoadState state timeout) s).
Proof.
  destruct s as [[st f ls] filled subs q log].
  cbv [waitForLoadState mbind M_bind record modify gets awaitCondition].
  cbn. by destruct (networkIdle st).
Qed.

Lemma waitForSelector_any selector timeout s :
  waitForSelector selector timeout s
  = (if matches selector s then Ok tt
     else Throw (TimeoutError "waitForSelector"),
     addCall (WaitForSelector selector timeout) s).
Proof.
  cbv [waitForSelector mbind M_bind record modify gets awaitCondition].
  replace (matches selector (addCall _ s)) with (matches selector s) by done.
  by destruct (matches selector s).
Qed.

(** [performSearch] on a page whose network never goes idle. *)
Lemma performSearch_busy startDate endDate s :
  networkIdle (site (page s)) = false →
  performSearch startDate endDate s
  = (Throw (TimeoutError "waitForLoadState"),
     addCall (WaitForLoadState "networkidle" None) s).
Proof.
  intros Hidle. unfold performSearch.
  erewrite FormFacts.bind_Throw; [done|].
  by rewrite waitForLoadState_any, Hidle.
Qed.

(** [performSearch] on a page whose form container never shows. *)
Lemma performSearch_formless startDate endDate s :
  networkIdle (site (page s)) = true →
  formContainer (site (page s)) = false →
  performSearch startDate endDate s
  = (Throw (TimeoutError "waitForSelector"),
     addCall (WaitForSelector Selectors.FormContainer (Some 20000%Z))
       (addCall (WaitForLoadState "networkidle" None) s)).
Proof.
  intros Hidle Hform. unfold performSearch.
  erewrite FormFacts.bind_Ok; [|by apply FormFacts.waitForLoadState_run].
  erewrite FormFacts.bind_Throw; [done|].
  rewrite waitForSelector_any.
  by replace (matches Selectors.FormContainer (addCall _ s)) with false
    by (symmetry; exact Hform).
Qed.

(** The checkboxes of the form that is submitted are those the loop of
    [setCheckboxes] left. *)
Lemma submitted_checkboxes startDate endDate s :
  checkboxes (form (page (submitted startDate endDate s)))
  = settleAll (checkboxes (form (page s))).
Proof. by destruct s as [[st [boxes fs fc sel] ls] filled subs q log]. Qed.

Lemma submitted_submissions startDate endDate s :
  submissions (submitted startDate endDate s)
  = submissions s ++ [form (page (submitted startDate endDate s))].
Proof. by destruct s as [[st [boxes fs fc sel] ls] filled subs q log]. Qed.

Lemma addCall_page c x : page (addCall c x) = page x.
Proof. reflexivity. Qed.

Lemma addCall_formFilled c x : formFilled (addCall c x) = formFilled x.
Proof. reflexivity. Qed.

Lemma addCall_queue c x : queue (addCall c x) = queue x.
Proof. reflexivity. Qed.

Lemma addCall_submissions c x : submissions (addCall c x) = submissions x.
Proof. reflexivity. Qed.

(** The state in which the loop of [setCheckboxes] leaves the page has
    the registry's answers, the result list, the guard, the queue, the
    submitted forms and the text fields it started with. *)
Lemma afterSetCheckboxes_frame s :
  site (page (afterSetCheckboxes s)) = site (page s)
  ∧ listing (page (afterSetCheckboxes s)) = listing (page s)
  ∧ formFilled (afterSetCheckboxes s) = formFilled s
  ∧ queue (afterSetCheckboxes s) = queue s
  ∧ submissions (afterSetCheckboxes s) = submissions s
  ∧ fields (form (page (afterSetCheckboxes s))) = fields (form (page s)).
Proof. by destruct s as [[st [boxes fs fc sel] ls] filled subs q log]. Qed.

Lemma blocked_or_passable boxes :
  existsb blocked boxes = true ∨ passable boxes.
Proof.
  destruct (existsb blocked boxes) eqn:Hblocked; [by left|].
  right. by apply FormFacts.passable_existsb.
Qed.

(** The state in which [performSearch] ends on a page that brings up the
    form and lets the loop through: the state right after the
    submission, with at most the call of [waitForFunction] added. *)
Lemma performSearch_end startDate endDate s :
  networkIdle (site (page s)) = true →
  formContainer (site (page s)) = true →
  passable (checkboxes (form (page s))) →
  snd (performSearch startDate endDate s) = submitted startDate endDate s
  ∨ snd (performSearch startDate endDate s)
    = addCall (WaitForFunction None) (submitted startDate endDate s).
Proof.
  intros Hidle Hform Hpass.
  destruct (performSearch startDate endDate s) as [r s'] eqn:Hrun.
  rewrite FormFacts.performSearch_run in Hrun by done. cbv zeta in Hrun.
  destruct (navigationCompletes _); [|left; by injection Hrun as _ <-].
  right. destruct (_ || _); [|by injection Hrun as _ <-].
  pose proof (classify_state (errorTextOf s)
                (addCall (WaitForFunction None)
                   (submitted startDate endDate s))) as Hstate.
  rewrite Hrun in Hstate. exact Hstate.
Qed.

(** Whatever happens, [performSearch] leaves the registry's answers, the
    result list, the guard and the queue as they are. *)
Lemma performSearch_frame startDate endDate s :
  site (page (snd (performSearch startDate endDate s))) = site (page s)
  ∧ listing (page (snd (performSearch startDate endDate s))) = listing (page s)
  ∧ formFilled (snd (performSearch startDate endDate s)) = formFilled s
  ∧ queue (snd (performSearch startDate endDate s)) = queue s.
Proof.
  destruct (networkIdle (site (page s))) eqn:Hidle;
    [|by rewrite performSearch_busy by done].
  destruct (formContainer (site (page s))) eqn:Hform;
    [|by rewrite performSearch_formless by done].
  destruct (blocked_or_passable (checkboxes (form (page s))))
    as [Hblocked | Hpass].
  - rewrite FormFacts.performSearch_blocked by done. cbn [snd].
    destruct (afterSetCheckboxes_frame
                (addCall (WaitForSelector Selectors.FormContainer
                            (Some 20000%Z))
                   (addCall (WaitForLoadState "networkidle" None) s)))
      as (-> & -> & -> & -> & _).
    done.
  - pose proof (FormFacts.submitted_frame startDate endDate s) as Hframe.
    destruct (performSearch_end startDate endDate s Hidle Hform Hpass)
      as [-> | ->]; [exact Hframe|].
    rewrite addCall_page, addCall_formFilled, addCall_queue. exact Hframe.
Qed.

(** Once the form container has shown and the loop is through,
    [performSearch] submits the form exactly once, however it ends. *)
Lemma performSearch_submits startDate endDate s :
  networkIdle (site (page s)) = true →
  formContainer (site (page s)) = true →
  passable (checkboxes (form (page s))) →
  submissions (snd (performSearch startDate endDate s))
  = submissions s ++ [form (page (submitted startDate endDate s))].
Proof.
  intros Hidle Hform Hpass.
  destruct (performSearch_end startDate endDate s Hidle Hform Hpass)
    as [-> | ->];
    rewrite ?addCall_submissions; apply submitted_submissions.
Qed.

(** When a checkbox stops the loop, [performSearch] submits nothing and
    leaves the text fields as they are. *)
Lemma performSearch_blocked_frame startDate endDate s :
  networkIdle (site (page s)) = true →
  formContainer (site (page s)) = true →
  existsb blocked (checkboxes (form (page s))) = true →
  submissions (snd (performSearch startDate endDate s)) = submissions s
  ∧ fields (form (page (snd (performSearch startDate endDate s))))
    = fields (form (page s)).
Proof.
  intros Hidle Hform Hblocked.
  rewrite FormFacts.performSearch_blocked by done. cbn [snd].
  destruct (afterSetCheckboxes_frame
              (addCall (WaitForSelector Selectors.FormContainer
                          (Some 20000%Z))
                 (addCall (WaitForLoadState "networkidle" None) s)))
    as (_ & _ & _ & _ & -> & ->).
  done.
Qed.

(** The loop keeps the number, the identifiers and the boxes of the
    checkboxes, and the checkboxes without a usable identifier. *)
Lemma settle_attributes checkbox :
  id (settle checkbox) = id checkbox ∧ box (settle checkbox) = box checkbox.
Proof. unfold settle. by destruct (needsToggle checkbox). Qed.

Lemma settleAll_length boxes :
  List.length (settleAll boxes) = List.length boxes.
Proof.
  induction boxes as [|checkbox boxes IH]; [done|]. cbn [settleAll].
  destruct (blocked checkbox); [done|]. simpl. by rewrite IH.
Qed.

Lemma settleAll_id boxes : id <$> settleAll boxes = id <$> boxes.
Proof.
  induction boxes as [|checkbox boxes IH]; [done|]. cbn [settleAll].
  destruct (blocked checkbox); [done|]. cbn [fmap list_fmap].
  f_equal; [apply settle_attributes|apply IH].
Qed.

Lemma settleAll_box boxes : box <$> settleAll boxes = box <$> boxes.
Proof.
  induction boxes as [|checkbox boxes IH]; [done|]. cbn [settleAll].
  destruct (blocked checkbox); [done|]. cbn [fmap list_fmap].
  f_equal; [apply settle_attributes|apply IH].
Qed.

Lemma settleAll_unidentified boxes :
  ∀ i checkbox,
    boxes !! i = Some checkbox →
    id checkbox = None ∨ id checkbox = Some EmptyString →
    settleAll boxes !! i = Some checkbox.
Proof.
  induction boxes as [|c boxes IH]; intros i checkbox Hi Hid; [done|].
  cbn [settleAll]. destruct (blocked c); [done|].
  destruct i as [|i]; simpl in *.
  - injection Hi as ->. f_equal. unfold settle, needsToggle.
    by destruct Hid as [-> | ->].
  - by apply IH.
Qed.

End FormMore.

(** X7: [performSearch] returns normally exactly when the network went
    idle, the form container showed, no checkbox stopped the loop of
    [setCheckboxes], the submission navigated, and the page then shows
    either a message that contains neither of the two phrases or,
    without any message, the result table. *)
Theorem performSearch_returns_iff
    (startDate endDate : string) (s : Browser.Crawl) :
  fst (Form.performSearch startDate endDate s) = Browser.Ok tt
  ↔ Browser.networkIdle (Browser.site (Browser.page s)) = true
    ∧ Browser.formContainer (Browser.site (Browser.page s)) = true
    ∧ FormSpec.passable (Browser.checkboxes (Browser.form (Browser.page s)))
    ∧ Browser.navigationCompletes (Browser.site (Browser.page s)) = true
    ∧ match Browser.infoMessage (Browser.site (Browser.page s)) with
      | None => Browser.searchTable (Browser.site (Browser.page s)) = true
      | Some text =>
          JS.includes "no results found" (JS.trim (JS.toLowerCase text)) = false
          ∧ JS.includes "too many results found"
              (JS.trim (JS.toLowerCase text)) = false
      end.
Proof.
  destruct (Browser.networkIdle (Browser.site (Browser.page s))) eqn:Hidle;
    [|rewrite FormMore.performSearch_busy by done; simpl;
      split; [done|by intros (? & _)]].
  destruct (Browser.formContainer (Browser.site (Browser.page s))) eqn:Hform;
    [|rewrite FormMore.performSearch_formless by done; simpl;
      split; [done|by intros (_ & ? & _)]].
  destruct (FormMore.blocked_or_passable
              (Browser.checkboxes (Browser.form (Browser.page s))))
    as [Hblocked | Hpass].
  { rewrite FormFacts.performSearch_blocked by done. cbn [fst].
    split; [done|]. intros (_ & _ & Hpass & _).
    apply FormFacts.passable_existsb in Hpass. congruence. }
  rewrite FormFacts.performSearch_run by done. cbv zeta.
  destruct (Browser.navigationCompletes _);
    [|split; [done|by intros (_ & _ & _ & ? & _)]].
  unfold Form.classify, FormSpec.errorTextOf, Form.mentions.
  destruct (Browser.infoMessage _) as [text|]; simpl.
  - rewrite orb_true_r.
    destruct (JS.includes "no results found" _);
      [split; [done|by intros (_ & _ & _ & _ & ? & _)]|].
    destruct (JS.includes "too many results found" _);
      [split; [done|by intros (_ & _ & _ & _ & _ & ?)]|].
    done.
  - rewrite orb_false_r.
    destruct (Browser.searchTable _); [done|].
    split; [done|by intros (_ & _ & _ & _ & ?)].
Qed.

(** X8: [performSearch] fails in one of three ways.  A wait times out;
    or a checkbox whose state disagrees with the target set has no box
    to click, and the call of [box.click()] throws before anything is
    typed or submitted; or, after the form was submitted once and the
    navigation completed, the page shows a message that contains one of
    the two phrases, and the error is the non-retryable one.  Only the
    last is not retried. *)
Theorem performSearch_failures
    (startDate endDate : string) (s : Browser.Crawl) (e : Browser.Error) :
  fst (Form.performSearch startDate endDate s) = Browser.Throw e →
  (∃ call, e = Browser.TimeoutError call)
  ∨ (e = Browser.TypeError "box.click is not a function"
     ∧ (∃ checkbox,
          checkbox ∈ Browser.checkboxes (Browser.form (Browser.page s))
          ∧ FormSpec.blocked checkbox = true)
     ∧ Browser.submissions (snd (Form.performSearch startDate endDate s))
       = Browser.submissions s
     ∧ Browser.fields
         (Browser.form (Browser.page
            (snd (Form.performSearch startDate endDate s))))
       = Browser.fields (Browser.form (Browser.page s)))
  ∨ (∃ message text,
       e = Browser.NonRetryableError message
       ∧ Browser.infoMessage (Browser.site (Browser.page s)) = Some text
       ∧ Browser.navigationCompletes (Browser.site (Browser.page s)) = true
       ∧ List.length (Browser.submissions
                        (snd (Form.performSearch startDate endDate s)))
         = S (List.length (Browser.submissions s))
       ∧ (JS.includes "no results found" (JS.trim (JS.toLowerCase text)) = true
          ∨ JS.includes "too many results found"
              (JS.trim (JS.toLowerCase text)) = true)).
Proof.
  intros Hthrow.
  destruct (Browser.networkIdle (Browser.site (Browser.page s))) eqn:Hidle;
    [|rewrite FormMore.performSearch_busy in Hthrow by done;
      injection Hthrow as <-; left; by eexists].
  destruct (Browser.formContainer (Browser.site (Browser.page s))) eqn:Hform;
    [|rewrite FormMore.performSearch_formless in Hthrow by done;
      injection Hthrow as <-; left; by eexists].
  destruct (FormMore.blocked_or_passable
              (Browser.checkboxes (Browser.form (Browser.page s))))
    as [Hblocked | Hpass].
  { right. left.
    destruct (FormMore.performSearch_blocked_frame startDate endDate s
                Hidle Hform Hblocked) as [Hsubs Hfields].
    rewrite FormFacts.performSearch_blocked in Hthrow by done.
    injection Hthrow as <-. split; [done|]. split; [|by split].
    apply existsb_exists in Hblocked as (checkbox & Hin & Hb).
    exists checkbox. by rewrite list_elem_of_In. }
  rewrite FormMore.performSearch_submits, length_app by done.
  rewrite FormFacts.performSearch_run in Hthrow by done. cbv zeta in Hthrow.
  destruct (Browser.navigationCompletes _);
    [|injection Hthrow as <-; left; by eexists].
  destruct (_ || _); [|injection Hthrow as <-; left; by eexists].
  unfold Form.classify, FormSpec.errorTextOf, Form.mentions in Hthrow.
  destruct (Browser.infoMessage _) as [text|]; [|done].
  cbn [fmap option_fmap option_map from_option] in Hthrow.
  destruct (JS.includes "no results found" _) eqn:Hno.
  - injection Hthrow as <-. right. right. eexists _, text.
    do 3 (split; [done|]). split; [simpl; lia|by left].
  - destruct (JS.includes "too many results found" _) eqn:Hmany; [|done].
    injection Hthrow as <-. right. right. eexists _, text.
    do 3 (split; [done|]). split; [simpl; lia|by right].
Qed.

(** X8 on a form whose target checkbox has no box to click. *)
Lemma performSearch_failures_witness :
  fst (Form.performSearch "2024-01-01" "2024-01-31"
         (Listing.start Samples.boxless_page))
  = Browser.Throw (Browser.TypeError "box.click is not a function")
  ∧ Browser.submissions
      (snd (Form.performSearch "2024-01-01" "2024-01-31"
              (Listing.start Samples.boxless_page)))
    = [].
Proof.
  split; [by vm_compute|].
  destruct (performSearch_failures "2024-01-01" "2024-01-31"
              (Listing.start Samples.boxless_page)
              (Browser.TypeError "box.click is not a function"))
    as [[call Hcall] | [(_ & _ & Hsubs & _) | (message & text & Hmsg & _)]];
    [by vm_compute|discriminate Hcall|exact Hsubs|discriminate Hmsg].
Defined.

(** X9: when the network does not go idle or the form container does
    not show, [performSearch] ends in the timeout of that wait without
    having touched the form: nothing is clicked, typed or submitted, and
    the only calls made are the waits. *)
Theorem performSearch_needs_form
    (startDate endDate : string) (s : Browser.Crawl) :
  Browser.networkIdle (Browser.site (Browser.page s)) = false
  ∨ Browser.formContainer (Browser.site (Browser.page s)) = false →
  let r := Form.performSearch startDate endDate s in
  (∃ call, fst r = Browser.Throw (Browser.TimeoutError call))
  ∧ Browser.form (Browser.page (snd r)) = Browser.form (Browser.page s)
  ∧ Browser.submissions (snd r) = Browser.submissions s
  ∧ ∃ waits, Browser.calls (snd r) = Browser.calls s ++ waits
             ∧ forallb FormSpec.suspends waits = true.
Proof.
  intros Hmissing r. subst r.
  destruct (Browser.networkIdle (Browser.site (Browser.page s))) eqn:Hidle.
  - destruct Hmissing as [|Hform]; [done|].
    rewrite FormMore.performSearch_formless by done.
    split; [by eexists|]. do 2 (split; [done|]).
    exists [ Browser.WaitForLoadState "networkidle" None;
             Browser.WaitForSelector Selectors.FormContainer (Some 20000%Z) ].
    split; [|done]. simpl. by rewrite <- app_assoc.
  - rewrite FormMore.performSearch_busy by done.
    split; [by eexists|]. do 2 (split; [done|]).
    by exists [ Browser.WaitForLoadState "networkidle" None ].
Qed.

(** X9 on a page whose form container never shows. *)
Lemma performSearch_needs_form_witness :
  let r := Form.performSearch "2024-01-01" "2024-01-31"
             (Listing.start MoreSamples.formless_page) in
  fst r = Browser.Throw (Browser.TimeoutError "waitForSelector")
  ∧ Browser.form (Browser.page (snd r)) = Samples.stale_form
  ∧ Browser.submissions (snd r) = [].
Proof.
  destruct (performSearch_needs_form "2024-01-01" "2024-01-31"
              (Listing.start MoreSamples.formless_page) (or_intror eq_refl))
    as (_ & Hform & Hsubs & _).
  split; [by vm_compute|]. split; [exact Hform|exact Hsubs].
Defined.

(** X10: on a form whose identified checkboxes all have a box to click,
    the form that [performSearch] hands to the registry has every
    identified checkbox checked exactly when its identifier is in the
    target set: the checkbox states survive the filling of the dates. *)
Theorem performSearch_submits_targets
    (startDate endDate : string) (s : Browser.Crawl) :
  Browser.networkIdle (Browser.site (Browser.page s)) = true →
  Browser.formContainer (Browser.site (Browser.page s)) = true →
  (∀ checkbox name,
     checkbox ∈ Browser.checkboxes (Browser.form (Browser.page s)) →
     Browser.id checkbox = Some name → name ≠ EmptyString →
     Browser.box checkbox = true) →
  ∃ f, Browser.submissions (snd (Form.performSearch startDate endDate s))
       = Browser.submissions s ++ [f]
       ∧ ∀ checkbox name,
           checkbox ∈ Browser.checkboxes f →
           Browser.id checkbox = Some name → name ≠ EmptyString →
           Browser.checked checkbox = Form.shouldBeChecked name.
Proof.
  intros Hidle Hform Hbox.
  assert (Hpass : FormSpec.passable
                    (Browser.checkboxes (Browser.form (Browser.page s)))).
  { intros checkbox Hin. unfold FormSpec.blocked.
    destruct (Browser.id checkbox) as [name|] eqn:Hid; [|done].
    destruct name as [|c name]; [done|].
    rewrite (Hbox checkbox (String c name)) by done.
    by rewrite andb_false_r. }
  eexists. split.
  - by apply FormMore.performSearch_submits.
  - intros checkbox name Hin Hid Hname.
    rewrite FormMore.submitted_checkboxes,
      FormFacts.settleAll_passable in Hin by done.
    apply list_elem_of_fmap in Hin as (before & -> & Hin).
    assert (Hid' : Browser.id before = Some name).
    { unfold FormSpec.settle in Hid. by destruct (FormSpec.needsToggle before). }
    apply FormFacts.settle_checked; [|done..]. by apply Hpass.
Qed.

(** X10 on a form with one target checkbox unchecked and another
    checkbox checked. *)
Lemma performSearch_submits_targets_witness :
  ∃ f, Browser.submissions
         (snd (Form.performSearch "2024-01-01" "2024-01-31"
                 (Listing.start MoreSamples.notice_page)))
       = [] ++ [f]
       ∧ ∀ checkbox name,
           checkbox ∈ Browser.checkboxes f →
           Browser.id checkbox = Some name → name ≠ EmptyString →
           Browser.checked checkbox = Form.shouldBeChecked name.
Proof.
  apply (performSearch_submits_targets "2024-01-01" "2024-01-31"
           (Listing.start MoreSamples.notice_page) eq_refl eq_refl).
  intros checkbox name Hin _ _. vm_compute in Hin.
  repeat (apply elem_of_cons in Hin as [->|Hin]); try done.
  by apply elem_of_nil in Hin.
Defined.

(** X11: [fillDateField] replaces the content of its field: whatever the
    field held and wherever the focus was, the field ends up holding
    exactly the value typed; every other field, the checkboxes and the
    submitted forms are as before, and filling the same value again
    changes no field. *)
Theorem fillDateField_overwrites
    (selector value : string) (s : Browser.Crawl) :
  selector ≠ Selectors.SubmitButton →
  let r := Form.fillDateField selector value s in
  fst r = Browser.Ok tt
  ∧ Browser.fields (Browser.form (Browser.page (snd r))) !! selector
    = Some value
  ∧ (∀ other, other ≠ selector →
       Browser.fields (Browser.form (Browser.page (snd r))) !! other
       = Browser.fields (Browser.form (Browser.page s)) !! other)
  ∧ Browser.checkboxes (Browser.form (Browser.page (snd r)))
    = Browser.checkboxes (Browser.form (Browser.page s))
  ∧ Browser.submissions (snd r) = Browser.submissions s
  ∧ Browser.fields (Browser.form (Browser.page
      (snd (Form.fillDateField selector value (snd r)))))
    = Browser.fields (Browser.form (Browser.page (snd r))).
Proof.
  intros Hsel r. subst r.
  assert (Heqb : String.eqb selector Selectors.SubmitButton = false)
    by by apply String.eqb_neq.
  rewrite !FormFacts.fillDateField_run by done.
  destruct s as [[st [boxes fs fc sel] ls] filled subs q log]. simpl.
  split; [done|]. split; [by rewrite lookup_insert_eq|].
  split; [intros other Hother; by rewrite lookup_insert_ne|].
  do 2 (split; [done|]). by rewrite insert_insert_eq.
Qed.

(** X11 on a field that holds a stale date. *)
Lemma fillDateField_overwrites_witness :
  Browser.fields
    (Browser.form (Browser.page
       (snd (Form.fillDateField Selectors.DateFrom "2024-01-31"
               (Listing.start Samples.both_phrases_page)))))
  !! Selectors.DateFrom
  = Some "2024-01-31".
Proof.
  refine (proj1 (proj2 (fillDateField_overwrites Selectors.DateFrom
                          "2024-01-31"
                          (Listing.start Samples.both_phrases_page) _))).
  discriminate.
Defined.

(** X12: [setCheckboxes] changes nothing but checked states: the
    checkboxes keep their number, order, identifiers and boxes; a
    checkbox without an identifier, or with the empty one, keeps its
    state; the text fields and the submitted forms are untouched. *)
Theorem setCheckboxes_keeps (s : Browser.Crawl) :
  let s' := snd (Form.setCheckboxes s) in
  let before := Browser.checkboxes (Browser.form (Browser.page s)) in
  let after := Browser.checkboxes (Browser.form (Browser.page s')) in
  List.length after = List.length before
  ∧ Browser.id <$> after = Browser.id <$> before
  ∧ Browser.box <$> after = Browser.box <$> before
  ∧ (∀ i checkbox,
       before !! i = Some checkbox →
       Browser.id checkbox = None ∨ Browser.id checkbox = Some EmptyString →
       after !! i = Some checkbox)
  ∧ Browser.fields (Browser.form (Browser.page s'))
    = Browser.fields (Browser.form (Browser.page s))
  ∧ Browser.submissions s' = Browser.submissions s.
Proof.
  cbv zeta. rewrite FormFacts.setCheckboxes_run. cbn [snd].
  rewrite FormFacts.afterSetCheckboxes_boxes.
  destruct (FormMore.afterSetCheckboxes_frame s)
    as (_ & _ & _ & _ & Hsubs & Hfields).
  split; [apply FormMore.settleAll_length|].
  split; [apply FormMore.settleAll_id|].
  split; [apply FormMore.settleAll_box|].
  split; [apply FormMore.settleAll_unidentified|].
  by split.
Qed.

(** X20: [setCheckboxes] is idempotent, whether it returns or throws:
    a second application, to the state the first one leaves, ends the
    way the first did, makes no call and changes nothing.  When every
    identified checkbox whose state disagrees with the target set has a
    box to click, the first application returns and leaves every
    identified checkbox checked exactly when its identifier is in the
    target set. *)
Theorem setCheckboxes_idempotent (s : Browser.Crawl) :
  let once := Form.setCheckboxes s in
  let twice := Form.setCheckboxes (snd once) in
  fst twice = fst once
  ∧ Browser.calls (snd twice) = Browser.calls (snd once)
  ∧ snd twice = snd once
  ∧ (FormSpec.passable (Browser.checkboxes (Browser.form (Browser.page s))) →
     fst once = Browser.Ok tt
     ∧ ∀ checkbox name,
         checkbox ∈ Browser.checkboxes
                      (Browser.form (Browser.page (snd once))) →
         Browser.id checkbox = Some name → name ≠ EmptyString →
         Browser.checked checkbox = Form.shouldBeChecked name).
Proof.
  cbv zeta. rewrite FormFacts.setCheckboxes_run. cbn [fst snd].
  rewrite FormFacts.setCheckboxes_run. cbn [fst snd].
  rewrite FormFacts.afterSetCheckboxes_idemp,
    FormFacts.afterSetCheckboxes_boxes, FormFacts.loopOutcome_settled.
  do 3 (split; [done|]).
  intros Hpass. split; [by apply FormFacts.loopOutcome_passable|].
  intros checkbox name Hin Hid Hname.
  rewrite FormFacts.settleAll_passable in Hin by done.
  apply list_elem_of_fmap in Hin as (before & -> & Hin).
  assert (Hid' : Browser.id before = Some name).
  { unfold FormSpec.settle in Hid. by destruct (FormSpec.needsToggle before). }
  apply FormFacts.settle_checked; [|done..]. by apply Hpass.
Qed.

(** X20 on a form whose checkboxes all have their box, and on one whose
    target checkbox has none. *)
Lemma setCheckboxes_idempotent_witness :
  (Browser.checked
     <$> Browser.checkboxes
           (Browser.form (Browser.page
              (snd (Form.setCheckboxes
                      (Listing.start Samples.both_phrases_page)))))
   = [true; false; true]
   ∧ fst (Form.setCheckboxes (Listing.start Samples.both_phrases_page))
     = Browser.Ok tt)
  ∧ fst (Form.setCheckboxes
           (snd (Form.setCheckboxes (Listing.start Samples.boxless_page))))
    = Browser.Throw (Browser.TypeError "box.click is not a function").
Proof.
  split; [split; [by vm_compute|]|].
  - apply (proj2 (proj2 (proj2
             (setCheckboxes_idempotent
                (Listing.start Samples.both_phrases_page))))).
    apply FormFacts.passable_existsb. by vm_compute.
  - rewrite (proj1 (setCheckboxes_idempotent
                      (Listing.start Samples.boxless_page))).
    by vm_compute.
Defined.

(** ** The listing handler, further *)

Module ListingMore.
Import Browser Listing ListingSpec.

Lemma turned_listing_cases s :
  listing (page (turned s)) = listing (page s)
  ∨ ∃ p, listing (page s) = p :: listing (page (turned s))
         ∧ listing (page (turned s)) ≠ [].
Proof.
  destruct s as [[st f [|p [|next rest]]] filled subs q log]; cbn;
    [by left..|]. right. by exists p.
Qed.

Lemma turned_queue s :
  queue (turned s)
  = queue s ++ [from_option batchOf [] (head (listing (page s)))].
Proof. by destruct (ListingFacts.turned_frame s) as (_ & _ & _ & -> & _). Qed.

Lemma harvested_queue s :
  queue (harvested s)
  = queue s ++ [from_option batchOf [] (head (listing (page s)))].
Proof. by destruct s as [[st f ls] filled subs q log]. Qed.

End ListingMore.

(** X13: for a request whose URL lies outside the search path the
    default handler goes straight to the pagination: it does not fill or
    submit the form, and it leaves the guard as it is, set or not. *)
Theorem defaultHandler_other_url
    (startDate endDate requestUrl : string) (fuel : nat) (s : Browser.Crawl) :
  JS.includes "/search/advanced-search" requestUrl = false →
  let r := Listing.defaultHandler startDate endDate fuel requestUrl s in
  r = Listing.paginate fuel s
  ∧ Browser.formFilled (snd r) = Browser.formFilled s
  ∧ Browser.submissions (snd r) = Browser.submissions s
  ∧ FormSpec.submitClicks (Browser.calls (snd r))
    = FormSpec.submitClicks (Browser.calls s).
Proof.
  intros Hurl r.
  assert (Hr : r = Listing.paginate fuel s).
  { subst r. unfold Listing.defaultHandler.
    erewrite FormFacts.bind_Ok; [|reflexivity].
    rewrite Hurl. cbn [andb].
    by erewrite FormFacts.bind_Ok; [|reflexivity]. }
  split; [done|]. rewrite Hr. apply ListingFacts.paginate_frame.
Qed.

(** X13 for a URL of the registry outside the search form. *)
Lemma defaultHandler_other_url_witness :
  Browser.submissions
    (snd (Listing.defaultHandler "2024-01-01" "2024-01-31" 5
            "https://ewyszukiwarka.pue.uprp.gov.pl/search/results"
            (Listing.start Samples.results_page)))
  = []
  ∧ Browser.formFilled
      (snd (Listing.defaultHandler "2024-01-01" "2024-01-31" 5
              "https://ewyszukiwarka.pue.uprp.gov.pl/search/results"
              (Listing.start Samples.results_page)))
    = false.
Proof.
  destruct (defaultHandler_other_url "2024-01-01" "2024-01-31"
              "https://ewyszukiwarka.pue.uprp.gov.pl/search/results" 5
              (Listing.start Samples.results_page))
    as (_ & Hfilled & Hsubs & _); [by vm_compute|].
  split; [exact Hsubs|exact Hfilled].
Defined.

(** X14: when the form step fails on the search page, the default
    handler fails with the same error before the pagination starts:
    nothing is enqueued and the guard stays unset, so a retry fills the
    form again. *)
Theorem defaultHandler_search_fails
    (startDate endDate requestUrl : string) (fuel : nat)
    (s : Browser.Crawl) (e : Browser.Error) :
  Browser.formFilled s = false →
  JS.includes "/search/advanced-search" requestUrl = true →
  fst (Form.performSearch startDate endDate s) = Browser.Throw e →
  let r := Listing.defaultHandler startDate endDate fuel requestUrl s in
  fst r = Browser.Throw e
  ∧ Browser.queue (snd r) = Browser.queue s
  ∧ Browser.formFilled (snd r) = false
  ∧ ListingSpec.iterations (Browser.calls (snd r))
    = ListingSpec.iterations
        (Browser.calls (snd (Form.performSearch startDate endDate s))).
Proof.
  intros Hunset Hurl Hfail r. subst r. unfold Listing.defaultHandler.
  erewrite FormFacts.bind_Ok; [|reflexivity].
  cbv beta. rewrite Hunset, Hurl. cbn [negb andb].
  destruct (FormMore.performSearch_frame startDate endDate s)
    as (_ & _ & Hfilled & Hqueue).
  destruct (Form.performSearch startDate endDate s) as [r sp] eqn:Hrun.
  cbn [fst snd] in *. subst r.
  erewrite FormFacts.bind_Throw;
    [|erewrite FormFacts.bind_Throw; [reflexivity|exact Hrun]].
  cbn [fst snd]. by rewrite Hfilled, Hqueue.
Qed.

(** X14 on a page that answers with an empty result. *)
Lemma defaultHandler_search_fails_witness :
  let r := Listing.defaultHandler "2024-01-01" "2024-01-31" 5 Listing.BASE_URL
             (Listing.start MoreSamples.empty_result_page) in
  fst r = Browser.Throw
            (Browser.NonRetryableError "No results found for the given criteria")
  ∧ Browser.queue (snd r) = []
  ∧ Browser.formFilled (snd r) = false.
Proof.
  destruct (defaultHandler_search_fails "2024-01-01" "2024-01-31"
              Listing.BASE_URL 5 (Listing.start MoreSamples.empty_result_page)
              (Browser.NonRetryableError "No results found for the given criteria"))
    as (Hthrow & Hqueue & Hfilled & _); [by vm_compute..|].
  split; [exact Hthrow|]. split; [exact Hqueue|exact Hfilled].
Defined.

(** X15: the pagination loop has no bound of its own: on a result list
    whose pages all show an enabled "next" control, the last included,
    it is still running after any number of iterations, and every
    iteration has handed one more batch to the scheduler. *)
Theorem paginate_never_ends (fuel : nat) :
  ∀ s : Browser.Crawl,
    Browser.listing (Browser.page s) ≠ [] →
    Forall (λ p, Browser.nextEnabled p = true)
           (Browser.listing (Browser.page s)) →
    fst (Listing.paginate fuel s) = Browser.Diverge
    ∧ List.length (Browser.queue (snd (Listing.paginate fuel s)))
      = (List.length (Browser.queue s) + fuel)%nat.
Proof.
  induction fuel as [|fuel IH]; intros s Hpages Hnext.
  - split; [done|]. simpl. lia.
  - rewrite ListingFacts.paginate_step.
    destruct (Browser.listing (Browser.page s)) as [|p rest] eqn:Hls; [done|].
    apply Forall_cons in Hnext as [Hp Hrest]. cbn [head from_option].
    rewrite Hp.
    assert (Hturned :
      Browser.listing (Browser.page (ListingSpec.turned s)) ≠ []
      ∧ Forall (λ p, Browser.nextEnabled p = true)
               (Browser.listing (Browser.page (ListingSpec.turned s)))).
    { pose proof (ListingMore.turned_listing_cases s) as Hcases.
      remember (Browser.listing (Browser.page (ListingSpec.turned s))) as l
        eqn:Hl in *.
      clear Hl. rewrite Hls in Hcases.
      destruct Hcases as [-> | (p' & Heq & Hne)].
      - split; [done|by apply Forall_cons].
      - split; [done|]. by injection Heq as _ <-. }
    destruct (IH (ListingSpec.turned s)) as [-> ->]; [apply Hturned..|].
    split; [done|]. rewrite ListingMore.turned_queue, length_app. simpl. lia.
Qed.

(** X15 on a single result page whose "next" control stays enabled. *)
Lemma paginate_never_ends_witness :
  fst (Listing.paginate 7 (Listing.start MoreSamples.stuck_page))
  = Browser.Diverge
  ∧ List.length
      (Browser.queue (snd (Listing.paginate 7
                             (Listing.start MoreSamples.stuck_page))))
    = 7%nat.
Proof.
  apply (paginate_never_ends 7 (Listing.start MoreSamples.stuck_page)).
  - discriminate.
  - repeat constructor.
Defined.

(** X16: on a page without a result table the pagination loop makes one
    iteration: it hands the scheduler one empty batch, finds no "next"
    control and returns. *)
Theorem paginate_no_table (fuel : nat) (s : Browser.Crawl) :
  Browser.listing (Browser.page s) = [] →
  let r := Listing.paginate (S fuel) s in
  fst r = Browser.Ok tt
  ∧ Browser.queue (snd r) = Browser.queue s ++ [[]]
  ∧ Browser.calls (snd r)
    = Browser.calls s ++ [Browser.EnqueueLinks Selectors.TableRowLink "detail"].
Proof.
  intros Hls r. subst r. rewrite ListingFacts.paginate_step, Hls.
  cbn [head from_option fst snd].
  split; [done|]. rewrite ListingMore.harvested_queue, Hls.
  split; [done|]. by destruct s as [[st f ls] filled subs q log].
Qed.

(** X16 on a page without a result table. *)
Lemma paginate_no_table_witness :
  fst (Listing.paginate 1 (Listing.start MoreSamples.bare_page)) = Browser.Ok tt
  ∧ Browser.queue (snd (Listing.paginate 1 (Listing.start MoreSamples.bare_page)))
    = [] ++ [[]].
Proof.
  destruct (paginate_no_table 0 (Listing.start MoreSamples.bare_page) eq_refl)
    as (Hok & Hqueue & _).
  split; [exact Hok|exact Hqueue].
Defined.

(** X17: the pagination loop enqueues nothing but the row links of the
    result list, each under the label [detail]: every batch it adds to
    the queue is the batch of one page of the list (or the empty batch,
    on a page without a table). *)
Theorem paginate_enqueues_listing (fuel : nat) :
  ∀ s : Browser.Crawl,
    ∃ batches,
      Browser.queue (snd (Listing.paginate fuel s)) = Browser.queue s ++ batches
      ∧ ∀ batch request,
          batch ∈ batches → request ∈ batch →
          Browser.label request = "detail"
          ∧ ∃ p, p ∈ Browser.listing (Browser.page s)
                 ∧ Browser.url request ∈ Browser.rowLinks p.
Proof.
  assert (Hbatch : ∀ (s : Browser.Crawl) request,
    request ∈ from_option ListingSpec.batchOf []
                (head (Browser.listing (Browser.page s))) →
    Browser.label request = "detail"
    ∧ ∃ p, p ∈ Browser.listing (Browser.page s)
           ∧ Browser.url request ∈ Browser.rowLinks p).
  { intros s request Hin.
    destruct (Browser.listing (Browser.page s)) as [|p rest];
      [by apply elem_of_nil in Hin|].
    simpl in Hin. unfold ListingSpec.batchOf in Hin.
    apply list_elem_of_fmap in Hin as (href & -> & Hin).
    split; [done|]. exists p. split; [apply list_elem_of_here|done]. }
  induction fuel as [|fuel IH]; intros s.
  - exists []. split; [by rewrite app_nil_r|]. intros batch request Hin.
    by apply elem_of_nil in Hin.
  - rewrite ListingFacts.paginate_step.
    destruct (from_option Browser.nextEnabled false _).
    + destruct (IH (ListingSpec.turned s)) as (batches & -> & Hall).
      exists (from_option ListingSpec.batchOf []
                (head (Browser.listing (Browser.page s))) :: batches).
      split; [by rewrite ListingMore.turned_queue, <- app_assoc|].
      intros batch request Hin Hreq.
      apply elem_of_cons in Hin as [-> | Hin]; [by apply Hbatch|].
      destruct (Hall batch request Hin Hreq) as (Hlabel & p & Hp & Hurl).
      split; [done|]. exists p. split; [|done].
      destruct (ListingMore.turned_listing_cases s) as [Heq | (p' & Heq & _)].
      * by rewrite <- Heq.
      * rewrite Heq. by apply list_elem_of_further.
    + exists [from_option ListingSpec.batchOf []
                (head (Browser.listing (Browser.page s)))].
      split; [apply ListingMore.harvested_queue|].
      intros batch request Hin Hreq.
      apply list_elem_of_singleton in Hin as ->. by apply Hbatch.
Qed.

(** ** Command-line arguments, further *)

(** X18: whatever [validateArgs] returns has been checked: the two
    strings are the third and fourth entries of the command line, both
    are non-empty and accepted by the date parser, and the start date is
    not later than the end date. *)
Theorem validateArgs_sound
    (parse : string → option Z) (argv : list string)
    (startDate endDate : string) :
  Args.validateArgs parse argv = Args.Returned startDate endDate →
  argv !! 2%nat = Some startDate
  ∧ argv !! 3%nat = Some endDate
  ∧ startDate ≠ EmptyString ∧ endDate ≠ EmptyString
  ∧ ∃ tStart tEnd,
      parse startDate = Some tStart ∧ parse endDate = Some tEnd
      ∧ (tStart ≤ tEnd)%Z.
Proof.
  unfold Args.validateArgs. rewrite !lookup_drop.
  replace (2 + 0)%nat with 2%nat by done. replace (2 + 1)%nat with 3%nat by done.
  destruct (argv !! 2%nat) as [a|]; [|done].
  destruct (argv !! 3%nat) as [b|]; [|by rewrite orb_true_r].
  unfold Args.missing, Args.isValidDate. simpl.
  destruct a as [|ca a]; [done|]. destruct b as [|cb b]; [done|]. simpl.
  destruct (parse (String ca a)) as [ta|] eqn:Ha; [|done].
  destruct (parse (String cb b)) as [tb|] eqn:Hb; [|done]. simpl.
  destruct (Z.ltb_spec tb ta); [done|].
  intros [= <- <-]. rewrite Ha, Hb.
  do 4 (split; [done|]). by exists ta, tb.
Qed.

(** X18 with the strict parser on the command line of January 2024. *)
Lemma validateArgs_sound_witness :
  ∃ tStart tEnd,
    Args.parseStrict "2024-01-01" = Some tStart
    ∧ Args.parseStrict "2024-01-31" = Some tEnd
    ∧ (tStart ≤ tEnd)%Z.
Proof.
  exact (proj2 (proj2 (proj2 (proj2
           (validateArgs_sound Args.parseStrict Samples.january_argv
              "2024-01-01" "2024-01-31" eq_refl))))).
Defined.

Module ArgsMore.
Import Args.

Lemma digit_range c d : digit c = Some d → (0 ≤ d ≤ 9)%Z.
Proof.
  unfold digit. destruct (_ && _) eqn:Hrange; [|done].
  apply andb_true_iff in Hrange as [Hlo Hhi].
  apply N.leb_le in Hlo, Hhi. intros [= <-]. lia.
Qed.

Lemma digit_zero c : digit c = Some 0%Z → c = "0"%char.
Proof.
  unfold digit. destruct (_ && _) eqn:Hrange; [|done].
  intros [= Hzero].
  assert (Hn : N_of_ascii c = 48%N) by lia.
  by rewrite <- (ascii_N_embedding c), Hn.
Qed.

(** The library's parser reads every string the parser of the format
    reads, to the same time value, unless the year is 0000. *)
Lemma parseLenient_strict dateStr t :
  parseStrict dateStr = Some t →
  substring 0 4 dateStr ≠ "0000" →
  parseLenient dateStr = Some t.
Proof.
  unfold parseStrict, parseLenient.
  rewrite <- (string_of_list_ascii_of_string dateStr) at 2.
  destruct (list_ascii_of_string dateStr)
    as [|y1 [|y2 [|y3 [|y4 [|dash1 [|m1 [|m2 [|dash2 [|d1 [|d2 [|? ?]]]]]]]]]]];
    try done.
  destruct (Ascii.eqb_spec dash1 "-") as [-> |]; [|done].
  destruct (Ascii.eqb_spec dash2 "-") as [-> |]; [|done].
  cbn [andb negb].
  destruct (digit y1) as [a1|] eqn:Hy1; [|done].
  destruct (digit y2) as [a2|] eqn:Hy2; [|done].
  destruct (digit y3) as [a3|] eqn:Hy3; [|done].
  destruct (digit y4) as [a4|] eqn:Hy4; [|done].
  destruct (digit m1) as [b1|] eqn:Hm1; [|done].
  destruct (digit m2) as [b2|] eqn:Hm2; [|done].
  destruct (digit d1) as [c1|] eqn:Hd1; [|done].
  destruct (digit d2) as [c2|] eqn:Hd2; [|done].
  cbn [mbind option_bind].
  intros Hvalid Hyear.
  cbn [digitsUpTo dashThen]. rewrite Hy1, Hy2, Hy3, Hy4.
  cbn [mbind option_bind dashThen Ascii.eqb Bool.eqb digitsUpTo].
  rewrite Hm1, Hm2.
  cbn [mbind option_bind dashThen Ascii.eqb Bool.eqb digitsUpTo].
  rewrite Hd1, Hd2.
  cbn [mbind option_bind forallb andb].
  replace (10 * (10 * (10 * (10 * 0 + a1) + a2) + a3) + a4)%Z
    with (1000 * a1 + 100 * a2 + 10 * a3 + a4)%Z by lia.
  replace (10 * (10 * 0 + b1) + b2)%Z with (10 * b1 + b2)%Z by lia.
  replace (10 * (10 * 0 + c1) + c2)%Z with (10 * c1 + c2)%Z by lia.
  assert (Hpos : (0 <? 1000 * a1 + 100 * a2 + 10 * a3 + a4)%Z = true).
  { apply Z.ltb_lt.
    pose proof (digit_range _ _ Hy1). pose proof (digit_range _ _ Hy2).
    pose proof (digit_range _ _ Hy3). pose proof (digit_range _ _ Hy4).
    destruct (decide (a1 = 0 ∧ a2 = 0 ∧ a3 = 0 ∧ a4 = 0)%Z)
      as [(-> & -> & -> & ->)|]; [|lia].
    exfalso. apply Hyear. simpl.
    by rewrite (digit_zero _ Hy1), (digit_zero _ Hy2), (digit_zero _ Hy3),
      (digit_zero _ Hy4). }
  rewrite Hpos. cbn [andb].
  by destruct (_ && _).
Qed.

End ArgsMore.

(** X21: [validateArgs] returns every pair of dates of the format
    YYYY-MM-DD, with a year other than 0000, whose start date is not
    later than the end date: the date library reads each of them to the
    day it names. *)
Theorem validateArgs_accepts_format
    (argv : list string) (startDate endDate : string) (tStart tEnd : Z) :
  argv !! 2%nat = Some startDate →
  argv !! 3%nat = Some endDate →
  Args.parseStrict startDate = Some tStart →
  Args.parseStrict endDate = Some tEnd →
  substring 0 4 startDate ≠ "0000" →
  substring 0 4 endDate ≠ "0000" →
  (tStart ≤ tEnd)%Z →
  Args.validateArgs Args.parseLenient argv = Args.Returned startDate endDate.
Proof.
  intros Hstart Hend Hs He Hys Hye Hle.
  unfold Args.validateArgs. rewrite !lookup_drop.
  replace (2 + 0)%nat with 2%nat by done. replace (2 + 1)%nat with 3%nat by done.
  rewrite Hstart, Hend. unfold Args.missing, Args.isValidDate.
  cbn [from_option default id].
  rewrite (ArgsMore.parseLenient_strict _ _ Hs Hys),
    (ArgsMore.parseLenient_strict _ _ He Hye).
  destruct startDate as [|cs startDate]; [done|].
  destruct endDate as [|ce endDate]; [done|].
  cbn [JS.isEmpty orb Args.laterThan].
  rewrite !bool_decide_eq_true_2 by done. cbn [negb orb].
  by rewrite (proj2 (Z.ltb_ge tEnd tStart)) by lia.
Qed.

(** X21 on the command line of January 2024. *)
Lemma validateArgs_accepts_format_witness :
  Args.validateArgs Args.parseLenient Samples.january_argv
  = Args.Returned "2024-01-01" "2024-01-31".
Proof.
  apply (validateArgs_accepts_format Samples.january_argv
           "2024-01-01" "2024-01-31" 1704067200000 1706659200000);
    by vm_compute.
Defined.

(** ** Submissions over a run *)

Module RunMore.
Import Browser Listing.

Lemma bind_Diverge {A B} (m : M A) (k : A → M B) s s' :
  m s = (Diverge, s') → (m ≫= k) s = (Diverge, s').
Proof. intros H. unfold mbind, M_bind. by rewrite H. Qed.

(** The forms submitted by the time the default handler ends are those
    submitted by its form step, if it ran one. *)
Lemma defaultHandler_submissions startDate endDate fuel requestUrl s :
  submissions (snd (defaultHandler startDate endDate fuel requestUrl s))
  = if JS.includes "/search/advanced-search" requestUrl
       && negb (formFilled s)
    then submissions (snd (Form.performSearch startDate endDate s))
    else submissions s.
Proof.
  unfold defaultHandler. erewrite FormFacts.bind_Ok; [|reflexivity].
  cbv beta. destruct (_ && _).
  - destruct (Form.performSearch startDate endDate s) as [[[]|e|] sp] eqn:Hrun;
      cbn [snd].
    + erewrite FormFacts.bind_Ok;
        [|erewrite FormFacts.bind_Ok; [reflexivity|exact Hrun]].
      by destruct (ListingFacts.paginate_frame fuel (setFormFilled true sp))
        as (_ & -> & _).
    + by erewrite FormFacts.bind_Throw;
        [|erewrite FormFacts.bind_Throw; [reflexivity|exact Hrun]].
    + by erewrite bind_Diverge;
        [|erewrite bind_Diverge; [reflexivity|exact Hrun]].
  - erewrite FormFacts.bind_Ok; [|reflexivity].
    by destruct (ListingFacts.paginate_frame fuel s) as (_ & -> & _).
Qed.

Lemma performSearch_submissions_cases startDate endDate s :
  submissions (snd (Form.performSearch startDate endDate s)) = submissions s
  ∨ ∃ f, submissions (snd (Form.performSearch startDate endDate s))
         = submissions s ++ [f].
Proof.
  destruct (networkIdle (site (page s))) eqn:Hidle;
    [|left; by rewrite FormMore.performSearch_busy by done].
  destruct (formContainer (site (page s))) eqn:Hform;
    [|left; by rewrite FormMore.performSearch_formless by done].
  destruct (FormMore.blocked_or_passable (checkboxes (form (page s))))
    as [Hblocked | Hpass].
  - left. by apply FormMore.performSearch_blocked_frame.
  - right. eexists. by apply FormMore.performSearch_submits.
Qed.

Lemma run_cons startDate endDate fuel task tasks s :
  run startDate endDate fuel (task :: tasks) s
  = run startDate endDate fuel tasks (dispatch startDate endDate fuel task s).
Proof. reflexivity. Qed.

End RunMore.

(** X19: one invocation of the default handler submits the form at most
    once, and only on the search path with the guard unset; so a run of
    any number of listing dispatches never submits more forms than it
    has dispatches, and the forms submitted earlier stay on record. *)
Theorem run_submissions_bounded
    (startDate endDate : string) (fuel : nat)
    (tasks : list (string * Browser.Page)) :
  ∀ s : Browser.Crawl,
    ∃ added,
      Browser.submissions (Listing.run startDate endDate fuel tasks s)
      = Browser.submissions s ++ added
      ∧ (List.length added ≤ List.length tasks)%nat
      ∧ (Browser.formFilled s = true → added = []).
Proof.
  induction tasks as [|task tasks IH]; intros s.
  - exists []. by rewrite app_nil_r.
  - rewrite RunMore.run_cons.
    destruct (IH (Listing.dispatch startDate endDate fuel task s))
      as (added & -> & Hlen & Hfilled).
    assert (Hstep :
      Browser.submissions (Listing.dispatch startDate endDate fuel task s)
      = Browser.submissions s
      ∨ Browser.formFilled s = false
        ∧ ∃ f, Browser.submissions
                 (Listing.dispatch startDate endDate fuel task s)
               = Browser.submissions s ++ [f]).
    { unfold Listing.dispatch. rewrite RunMore.defaultHandler_submissions.
      replace (Browser.formFilled (Browser.setPage (snd task) s))
        with (Browser.formFilled s) by done.
      destruct (Browser.formFilled s); [rewrite andb_false_r; by left|].
      destruct (_ && _); [|by left].
      destruct (RunMore.performSearch_submissions_cases startDate endDate
                  (Browser.setPage (snd task) s)) as [-> | [f ->]];
        [by left|]. right. split; [done|]. by exists f. }
    destruct Hstep as [-> | (Hunset & f & ->)].
    + exists added. split; [done|]. split; [simpl; lia|].
      intros Hset. apply Hfilled.
      by destruct (dispatch_filled startDate endDate fuel task s Hset).
    + exists (f :: added). split; [by rewrite <- app_assoc|].
      split; [simpl; lia|]. intros Hset. congruence.
Qed.
